(** * auto_deploy.py: deployment workflow with health check and rollback

    A shallow embedding of [python-scripts/auto_deploy.py].  The script is a
    sequence of calls to the operating system (subprocess.run, time.sleep,
    os.path.exists, the clock) glued by early returns and one try/except in
    [main].  The embedding keeps that shape:

    - the operating system is an interface [OS] over an arbitrary world
      type; every theorem about control flow holds for every implementation
      of it;
    - a Python function is a computation in a state-and-exception monad
      whose state carries the world, the trace of everything the script did
      (log lines, spawned commands with their results, sleeps) and the one
      local variable of [main] that its exception handlers read;
    - exceptions are raised by the blocking calls, subprocess.run and
      time.sleep, which is where an interrupt or an operating-system error
      reaches the script, and by the one print whose text is not ASCII,
      which stdout may be unable to encode.  Every other print is taken
      to succeed; what is proved about the ways out of [main] is stated
      so that it does not depend on that. *)

From Stdlib Require Import ZArith Lia Ascii String.
From stdpp Require Import base strings list gmap pretty.

Local Open Scope Z_scope.

(** ** Configuration (STEP 1 of the script) *)

Definition APP_NAME : string := "web-application".
Definition APP_VERSION : string := "v2.5.0".
Definition SOURCE_DIR : string := "/tmp/builds/web-application".
Definition DEPLOY_DIR : string := "/opt/applications/web-application".
Definition BACKUP_DIR : string := "/opt/backups/web-application".
Definition HEALTH_CHECK_URL : string := "http://localhost:8080/health".

(** ** Exceptions

    [KeyboardInterrupt] derives from BaseException only; the others are
    subclasses of Exception, so [except Exception] catches them. *)

Inductive exn : Type :=
  | KeyboardInterrupt
  | TimeoutExpired
  | OSError (msg : string)
  | UnicodeEncodeError (msg : string).

Definition is_Exception (e : exn) : bool :=
  match e with
  | KeyboardInterrupt => false
  | TimeoutExpired | OSError _ | UnicodeEncodeError _ => true
  end.

(** [str(e)] *)
Definition str (e : exn) : string :=
  match e with
  | KeyboardInterrupt => ""
  | TimeoutExpired => "Command timed out"
  | OSError msg | UnicodeEncodeError msg => msg
  end.

Inductive res (A : Type) : Type :=
  | Val (a : A)
  | Exc (e : exn).
Arguments Val {A} a.
Arguments Exc {A} e.

(** ** Shell commands

    The script builds its command lines with f-strings.  They are kept as
    syntax, so that a model of the operating system can give them a
    meaning; [render] prints the exact command line. *)

Inductive command : Type :=
  | Pgrep (pattern : string)
  | Pkill (signal pattern : string)
  | MkdirP (dir : string)
  | CpR (src dst : string)
  | CpRAll (srcdir dstdir : string)
  | ChmodX (dir : string)
  | RmRf (dir : string)
  | Script (path : string)
  | Cd (dir : string)
  | Nohup (prog : string)
  | Curl (url : string)
  | AndThen (c1 c2 : command)
  | Background (c : command).

Fixpoint render (c : command) : string :=
  match c with
  | Pgrep p => "pgrep -f " +:+ p
  | Pkill s p => "pkill -" +:+ s +:+ " -f " +:+ p
  | MkdirP d => "mkdir -p " +:+ d
  | CpR s d => "cp -r " +:+ s +:+ " " +:+ d
  | CpRAll s d => "cp -r " +:+ s +:+ "/* " +:+ d +:+ "/"
  | ChmodX d => "chmod +x " +:+ d +:+ "/*.sh"
  | RmRf d => "rm -rf " +:+ d
  | Script p => p
  | Cd d => "cd " +:+ d
  | Nohup p => "nohup " +:+ p
  | Curl u => "curl -sf " +:+ u
  | AndThen c1 c2 => render c1 +:+ " && " +:+ render c2
  | Background c => render c +:+ " &"
  end.

Global Instance command_eq_dec : EqDecision command.
Proof. solve_decision. Defined.

(** The command lines of the script. *)
Definition graceful_cmd : command := Pkill "SIGTERM" APP_NAME.
Definition force_cmd : command := Pkill "SIGKILL" APP_NAME.
Definition status_cmd : command := Pgrep APP_NAME.
Definition backup_cmd (backup_path : string) : command :=
  AndThen (MkdirP BACKUP_DIR) (CpR DEPLOY_DIR backup_path).
Definition restore_cmd (backup_path : string) : command :=
  AndThen (RmRf DEPLOY_DIR) (CpR backup_path DEPLOY_DIR).
Definition probe_cmd : command := Curl HEALTH_CHECK_URL.
Definition start_script : string := DEPLOY_DIR +:+ "/start.sh".
Definition alternative_start_cmd : command :=
  Background (AndThen (Cd DEPLOY_DIR) (Nohup "./app")).

(** ** The trace of a run *)

Inductive level : Type := INFO | SUCCESS | WARNING | ERROR.

(** What [subprocess.run] hands back: a CompletedProcess. *)
Record completed : Type := Completed { returncode : Z; stderr : string }.

Record notification : Type := Notification {
  n_status : string;
  n_application : string;
  n_version : string;
  n_time : string;
  n_message : string
}.

Inductive event : Type :=
  | ELog (lvl : level) (message : string)
  | EPrint (line : string)
  | ERun (c : command) (timeout : option Z) (r : res completed)
  | EExists (path : string) (b : bool)
  | ESleep (seconds : Z) (r : res unit)
  | ENotify (n : notification).

(** ** The operating system *)

Record OS (W : Type) : Type := {
  (** subprocess.run(command, shell=True, capture_output=True, timeout=t) *)
  os_run : command -> option Z -> W -> res completed * W;
  (** os.path.exists(path) *)
  os_exists : string -> W -> bool;
  (** time.sleep(seconds) *)
  os_sleep : Z -> W -> res unit * W;
  (** datetime.now().strftime(format) *)
  os_strftime : string -> W -> string;
  (** time.time(), in hundredths of a second *)
  os_time : W -> Z;
  (** sys.stdout.write(line), for a line that is not ASCII *)
  os_print : string -> W -> res unit * W
}.
Arguments os_run {W} _ _ _ _.
Arguments os_exists {W} _ _ _.
Arguments os_sleep {W} _ _ _.
Arguments os_strftime {W} _ _ _.
Arguments os_time {W} _ _.
Arguments os_print {W} _ _ _.

(** ** Interpreter state and monad *)

Record St (W : Type) : Type := MkSt {
  world : W;
  trace : list event;
  (** the local variable [backup_path] of [main] *)
  main_backup_path : option string
}.
Arguments MkSt {W} _ _ _.
Arguments world {W} _.
Arguments trace {W} _.
Arguments main_backup_path {W} _.

Definition Prog (W A : Type) : Type := St W -> res A * St W.

Definition ret {W A} (a : A) : Prog W A := fun st => (Val a, st).

Definition bind {W A B} (m : Prog W A) (k : A -> Prog W B) : Prog W B :=
  fun st =>
    match m st with
    | (Val a, st1) => k a st1
    | (Exc e, st1) => (Exc e, st1)
    end.

(** [try: body / except ...: handler].  The handler answers [None] for an
    exception that no except clause matches; it then propagates. *)
Definition try_except {W A} (body : Prog W A) (handler : exn -> option (Prog W A))
  : Prog W A :=
  fun st =>
    match body st with
    | (Val a, st1) => (Val a, st1)
    | (Exc e, st1) =>
        match handler e with
        | Some h => h st1
        | None => (Exc e, st1)
        end
    end.

Declare Scope py_scope.
Delimit Scope py_scope with py.
Notation "x <- m ;; k" := (bind m (fun x => k))
  (at level 100, m at next level, right associativity) : py_scope.
Notation "m ;; k" := (bind m (fun _ => k))
  (at level 100, right associativity) : py_scope.
Local Open Scope py_scope.

Definition emit {W} (e : event) : Prog W unit :=
  fun st => (Val tt, MkSt (world st) (trace st ++ [e]) (main_backup_path st)).

Definition get_backup_path {W} : Prog W (option string) :=
  fun st => (Val (main_backup_path st), st).

Definition set_backup_path {W} (v : option string) : Prog W unit :=
  fun st => (Val tt, MkSt (world st) (trace st) v).

(** Python truthiness of a value that is None or a string. *)
Definition truthy (v : option string) : bool :=
  match v with
  | Some (String _ _) => true
  | _ => false
  end.

(** [status.upper()] *)
Definition upper_ascii (a : ascii) : ascii :=
  let n := nat_of_ascii a in
  if ((97 <=? n) && (n <=? 122))%nat then ascii_of_nat (n - 32) else a.

Fixpoint upper (s : string) : string :=
  match s with
  | EmptyString => EmptyString
  | String a s' => String (upper_ascii a) (upper s')
  end.

(** [f"{x:.2f}"] for a duration held in hundredths of a second. *)
Definition two_digits (n : Z) : string :=
  if n <? 10 then "0" +:+ pretty n else pretty n.

Definition format_2f (hundredths : Z) : string :=
  (if hundredths <? 0 then "-" else "") +:+
  pretty (Z.abs hundredths / 100) +:+ "." +:+ two_digits (Z.abs hundredths mod 100).
Global Arguments format_2f : simpl never.

Section Script.
Context {W : Type} (os : OS W).

Local Abbreviation M := (Prog W).

(** *** Primitive calls *)

Definition subprocess_run (c : command) (timeout : option Z) : M completed :=
  fun st =>
    let '(r, w) := os_run os c timeout (world st) in
    (r, MkSt w (trace st ++ [ERun c timeout r]) (main_backup_path st)).

Definition time_sleep (seconds : Z) : M unit :=
  fun st =>
    let '(r, w) := os_sleep os seconds (world st) in
    (r, MkSt w (trace st ++ [ESleep seconds r]) (main_backup_path st)).

Definition path_exists (path : string) : M bool :=
  fun st =>
    let b := os_exists os path (world st) in
    (Val b, MkSt (world st) (trace st ++ [EExists path b]) (main_backup_path st)).

Definition strftime (format : string) : M string :=
  fun st => (Val (os_strftime os format (world st)), st).

Definition time_time : M Z :=
  fun st => (Val (os_time os (world st)), st).

(** *** STEP 2: printing *)

Definition print (line : string) : M unit := emit (EPrint line).
Definition print_info (message : string) : M unit := emit (ELog INFO message).
Definition print_success (message : string) : M unit := emit (ELog SUCCESS message).
Definition print_warning (message : string) : M unit := emit (ELog WARNING message).
Definition print_error (message : string) : M unit := emit (ELog ERROR message).

(** [print_success] of a message that holds a character outside ASCII.
    Whether stdout can encode it is the host's: where it cannot, print
    raises before anything is written. *)
Definition print_success_encoded (message : string) : M unit :=
  fun st =>
    let '(r, w) := os_print os message (world st) in
    match r with
    | Val _ => (Val tt, MkSt w (trace st ++ [ELog SUCCESS message]) (main_backup_path st))
    | Exc e => (Exc e, MkSt w (trace st) (main_backup_path st))
    end.

(** *** STEP 3: run_command *)

Definition run_command (c : command) (description : string) : M bool :=
  (if description is EmptyString then ret tt else print_info description) ;;
  try_except
    (result <- subprocess_run c (Some 300) ;;
     if returncode result =? 0 then
       print_success "Command completed successfully" ;;
       ret true
     else
       print_error ("Command failed with exit code " +:+ pretty (returncode result)) ;;
       (if stderr result is EmptyString then ret tt
        else print_error ("Error: " +:+ stderr result)) ;;
       ret false)
    (fun e =>
       match e with
       | TimeoutExpired =>
           Some (print_error "Command timed out after 5 minutes" ;; ret false)
       | OSError _ | UnicodeEncodeError _ =>
           Some (print_error ("Failed to run command: " +:+ str e) ;; ret false)
       | KeyboardInterrupt => None
       end).

(** *** STEP 4: check_app_running *)

Definition check_app_running : M bool :=
  print_info "Checking if application is running..." ;;
  result <- subprocess_run status_cmd None ;;
  if returncode result =? 0 then
    print_warning (APP_NAME +:+ " is currently running") ;;
    ret true
  else
    print_info (APP_NAME +:+ " is not running") ;;
    ret false.

(** *** STEP 5: stop_application *)

(** The tail of the function, reached when the graceful path did not
    return. *)
Definition force_kill : M bool :=
  print_warning "Graceful shutdown failed, forcing kill..." ;;
  killed <- run_command force_cmd "Sending SIGKILL signal" ;;
  if killed then
    time_sleep 2 ;;
    print_success "Application forcefully stopped" ;;
    ret true
  else
    ret false.

Definition stop_application : M bool :=
  print_info ("Stopping " +:+ APP_NAME +:+ "...") ;;
  signalled <- run_command graceful_cmd "Sending SIGTERM (graceful shutdown) signal" ;;
  if signalled then
    time_sleep 5 ;;
    running <- check_app_running ;;
    if negb running then
      print_success "Application stopped successfully" ;;
      ret true
    else
      force_kill
  else
    force_kill.

(** *** STEP 6: backup_current_version *)

Definition backup_current_version : M (option string) :=
  print_info "Creating backup of current version..." ;;
  present <- path_exists DEPLOY_DIR ;;
  if negb present then
    print_warning "No existing deployment to backup" ;;
    ret None
  else
    timestamp <- strftime "%Y%m%d_%H%M%S" ;;
    let backup_path := BACKUP_DIR +:+ "/" +:+ APP_NAME +:+ "_" +:+ timestamp in
    copied <- run_command (backup_cmd backup_path) ("Backing up to " +:+ backup_path) ;;
    if copied then
      print_success ("Backup created: " +:+ backup_path) ;;
      ret (Some backup_path)
    else
      print_error "Backup failed!" ;;
      ret None.

(** *** STEP 7: deploy_new_version *)

Definition deploy_new_version : M bool :=
  print_info ("Deploying " +:+ APP_NAME +:+ " version " +:+ APP_VERSION +:+ "...") ;;
  present <- path_exists SOURCE_DIR ;;
  if negb present then
    print_error ("Source directory not found: " +:+ SOURCE_DIR) ;;
    ret false
  else
    made <- run_command (MkdirP DEPLOY_DIR) "Creating deployment directory" ;;
    if negb made then ret false
    else
      copied <- run_command (CpRAll SOURCE_DIR DEPLOY_DIR) "Copying new application files" ;;
      if negb copied then ret false
      else
        marked <- run_command (ChmodX DEPLOY_DIR) "Setting execute permissions" ;;
        if negb marked then ret false
        else
          print_success "New version deployed successfully" ;;
          ret true.

(** *** STEP 8: start_application *)

Definition start_application : M bool :=
  print_info ("Starting " +:+ APP_NAME +:+ "...") ;;
  present <- path_exists start_script ;;
  start_command <-
    (if negb present then
       print_warning ("Start script not found: " +:+ start_script) ;;
       print_info "Attempting alternative start method..." ;;
       ret alternative_start_cmd
     else
       ret (Script start_script)) ;;
  started <- run_command start_command "Executing start command" ;;
  if started then
    time_sleep 3 ;;
    print_success "Application started" ;;
    ret true
  else
    print_error "Failed to start application" ;;
    ret false.

(** *** STEP 9: health_check *)

(** One pass through the body of the while loop up to the sleep: the
    probe, inside its try/except.  [Some true] is the [return True] of
    the loop body, [None] means that the loop goes on.  The success line
    starts with a check mark, U+2713, the only character of the script
    outside ASCII; it is printed inside the try block. *)
Definition health_attempt (attempt : nat) : M (option bool) :=
  try_except
    (result <- subprocess_run probe_cmd (Some 5) ;;
     if returncode result =? 0 then
       print_success_encoded "✓ Application is healthy!" ;;
       ret (Some true)
     else
       print_warning ("Health check failed (attempt " +:+ pretty attempt +:+ ")") ;;
       ret None)
    (fun e =>
       if is_Exception e then
         Some (print_warning ("Health check error: " +:+ str e) ;; ret None)
       else None).

(** [while attempt <= max_attempts].  [remaining] is the number of
    iterations still to run, [max_attempts + 1 - attempt]; the loop
    condition holds exactly when it is positive. *)
Fixpoint health_check_loop (max_attempts remaining attempt : nat) : M bool :=
  match remaining with
  | O =>
      print_error "Health check failed - application is not responding" ;;
      ret false
  | S remaining' =>
      print_info ("Health check attempt " +:+ pretty attempt +:+ "/" +:+ pretty max_attempts) ;;
      verdict <- health_attempt attempt ;;
      match verdict with
      | Some b => ret b
      | None =>
          (if (attempt <? max_attempts)%nat then time_sleep 5 else ret tt) ;;
          health_check_loop max_attempts remaining' (S attempt)
      end
  end.

(** The body of [health_check], with its local constant [max_attempts]
    as a parameter. *)
Definition health_check_with (max_attempts : nat) : M bool :=
  print_info "Performing health check..." ;;
  health_check_loop max_attempts max_attempts 1.

Definition health_check : M bool := health_check_with 12.

(** *** STEP 10: rollback *)

Definition rollback (backup_path : option string) : M bool :=
  print_warning "Initiating rollback to previous version..." ;;
  usable <-
    (match backup_path with
     | Some (String _ _ as p) => path_exists p
     | _ => ret false
     end) ;;
  if negb usable then
    print_error "No backup available for rollback!" ;;
    ret false
  else
    stop_application ;;
    restored <- run_command (restore_cmd (default "" backup_path))
                  "Restoring previous version" ;;
    started <- (if restored then start_application else ret false) ;;
    if started then
      print_success "Rollback completed successfully" ;;
      ret true
    else
      print_error "Rollback failed!" ;;
      ret false.

(** *** STEP 11: send_notification *)

Definition send_notification (status message : string) : M unit :=
  print_info ("Sending " +:+ status +:+ " notification...") ;;
  now <- strftime "%Y-%m-%d %H:%M:%S" ;;
  emit (ENotify (Notification (upper status) APP_NAME APP_VERSION now message)).

(** *** STEP 12: main *)

Definition rule : string := String.concat "" (replicate 50 "=").

(** [if backup_path: rollback(backup_path)]; the result of [rollback]
    is dropped at each of its four call sites. *)
Definition rollback_if_backup : M unit :=
  backup_path <- get_backup_path ;;
  if truthy backup_path then rollback backup_path ;; ret tt else ret tt.

(** Steps 6 and after, reached once the application has started. *)
Definition main_from_health_check (deployment_start_time : Z) : M Z :=
  healthy <- health_check ;;
  if negb healthy then
    print_error "Health check failed" ;;
    backup_path <- get_backup_path ;;
    (if truthy backup_path then
       rollback backup_path ;;
       send_notification "failure" "Deployment failed health check, rolled back"
     else ret tt) ;;
    ret 1
  else
    now <- time_time ;;
    let deployment_time := now - deployment_start_time in
    print "" ;;
    print rule ;;
    print_success "DEPLOYMENT COMPLETED SUCCESSFULLY!" ;;
    print_success ("Time taken: " +:+ format_2f deployment_time +:+ " seconds") ;;
    print rule ;;
    send_notification "success"
      ("Deployment completed in " +:+ format_2f deployment_time +:+ "s") ;;
    ret 0.

(** Steps 4 and after, reached when the application was not running or
    has been stopped. *)
Definition main_from_deploy (deployment_start_time : Z) : M Z :=
  deployed <- deploy_new_version ;;
  if negb deployed then
    print_error "Deployment failed" ;;
    ret 1
  else
    started <- start_application ;;
    if negb started then
      print_error "Failed to start application" ;;
      rollback_if_backup ;;
      ret 1
    else
      main_from_health_check deployment_start_time.

(** Step 3, taken when the application was running. *)
Definition main_from_stop (deployment_start_time : Z) : M Z :=
  stopped <- stop_application ;;
  if negb stopped then
    print_error "Failed to stop application" ;;
    ret 1
  else
    main_from_deploy deployment_start_time.

(** The body of the try block. *)
Definition main_try (deployment_start_time : Z) : M Z :=
  is_running <- check_app_running ;;
  (if is_running then
     backup_path <- backup_current_version ;;
     set_backup_path backup_path ;;
     if negb (truthy backup_path) then
       print_warning "Backup failed, but continuing deployment..."
     else ret tt
   else ret tt) ;;
  if is_running then
    main_from_stop deployment_start_time
  else
    main_from_deploy deployment_start_time.

(** The two except clauses of [main]. *)
Definition main_except (e : exn) : option (M Z) :=
  match e with
  | KeyboardInterrupt =>
      Some (print "" ;;
            print_warning "Deployment interrupted by user" ;;
            rollback_if_backup ;;
            ret 1)
  | _ =>
      Some (print_error ("Unexpected error: " +:+ str e) ;;
            rollback_if_backup ;;
            ret 1)
  end.

Definition main : M Z :=
  print rule ;;
  print "    AUTOMATED DEPLOYMENT SCRIPT" ;;
  print ("    Application: " +:+ APP_NAME) ;;
  print ("    Version: " +:+ APP_VERSION) ;;
  now <- strftime "%Y-%m-%d %H:%M:%S.%f" ;;
  print ("    Time: " +:+ now) ;;
  print rule ;;
  print "" ;;
  deployment_start_time <- time_time ;;
  set_backup_path None ;;
  try_except (main_try deployment_start_time) main_except.

End Script.

(** A run of the script starts with an empty trace. *)
Definition init {W} (w : W) : St W := MkSt w [] None.

(** * Two operating systems

    The theorems about control flow quantify over every [OS].  Two
    implementations serve as concrete inputs and as the model in which the
    properties of the file system and of the process table are stated. *)

(** ** A scripted operating system

    The world counts the calls made so far; the script says what the
    n-th call to subprocess.run and the n-th call to time.sleep answer. *)

Record script : Type := {
  on_run : nat -> command -> res completed;
  on_sleep : nat -> res unit;
  on_exists : string -> bool;
  on_strftime : string -> string
}.

Definition ScriptOS (s : script) : OS (nat * nat) := {|
  os_run c _ w := (on_run s w.1 c, (S w.1, w.2));
  os_exists p _ := on_exists s p;
  os_sleep _ w := (on_sleep s w.2, (w.1, S w.2));
  os_strftime f _ := on_strftime s f;
  os_time _ := 0;
  os_print _ w := (Val tt, w)
|}.

Definition exit_with (rc : Z) : res completed := Val (Completed rc "").

(** A script given by the list of answers of subprocess.run, every later
    call exiting with 0; no sleep is interrupted. *)
Definition answers (runs : list (res completed)) (present : list string) : script := {|
  on_run i _ := nth i runs (exit_with 0);
  on_sleep _ := Val tt;
  on_exists p := bool_decide (p ∈ present);
  on_strftime _ := "20240115_103000"
|}.

(** The health prober against a probe function: the n-th probe answers
    [probe n]. *)
Definition probing (probe : nat -> res completed) : script := {|
  on_run i _ := probe i;
  on_sleep _ := Val tt;
  on_exists _ := false;
  on_strftime _ := "20240115_103000"
|}.

(** The same hosts with a stdout that encodes ASCII only: printing a line
    with any other character raises UnicodeEncodeError, as Python does
    under an ASCII locale or with PYTHONIOENCODING=ascii. *)
Definition ascii_only (line : string) : bool :=
  forallb (fun a => (nat_of_ascii a <? 128)%nat) (list_ascii_of_string line).

Definition AsciiOS (s : script) : OS (nat * nat) := {|
  os_run c _ w := (on_run s w.1 c, (S w.1, w.2));
  os_exists p _ := on_exists s p;
  os_sleep _ w := (on_sleep s w.2, (w.1, S w.2));
  os_strftime f _ := on_strftime s f;
  os_time _ := 0;
  os_print line w :=
    (if ascii_only line then Val tt
     else Exc (UnicodeEncodeError "'ascii' codec can't encode character"), w)
|}.

(** ** A simulated host

    A small model of what the commands of the script do to a host: the
    directories at the locations the script names, and the process of the
    application.  A directory is the finite map from the relative paths of
    its files to their bytes.  Locations are keyed by their full path; the
    three configured directories lie in disjoint subtrees, and the model
    does not track nesting between locations.  The model has no faults:
    no command times out, nothing is interrupted. *)

Record sim : Type := Sim {
  files : gmap string (gmap string string);
  (** [Some g]: a process matching APP_NAME exists; [g] tells whether it
      exits on SIGTERM. *)
  process : option bool;
  app_starts : bool;
  app_graceful : bool;
  app_healthy : bool;
  clock : string -> string
}.

Definition with_files (f : gmap string (gmap string string)) (w : sim) : sim :=
  Sim f (process w) (app_starts w) (app_graceful w) (app_healthy w) (clock w).

Definition with_process (p : option bool) (w : sim) : sim :=
  Sim (files w) p (app_starts w) (app_graceful w) (app_healthy w) (clock w).

(** The last component of a path. *)
Fixpoint basename_from (acc s : string) : string :=
  match s with
  | EmptyString => acc
  | String a s' =>
      if Ascii.eqb a "/" then basename_from EmptyString s'
      else basename_from (acc +:+ String a EmptyString) s'
  end.

Definition basename (s : string) : string := basename_from EmptyString s.

Definition under (dir : string) (d : gmap string string) : gmap string string :=
  list_to_map (prod_map (fun k => dir +:+ "/" +:+ k) id <$> map_to_list d).

Definition is_script_name (k : string) : bool :=
  match String.index 0 "/" k with
  | Some _ => false
  | None =>
      let n := String.length k in
      (3 <=? n)%nat && String.eqb (String.substring (n - 3) 3 k) ".sh"
  end.

Definition has_scripts (d : gmap string string) : bool :=
  existsb (fun kv => is_script_name kv.1) (map_to_list d).

Definition start_app (w : sim) : Z * sim :=
  if app_starts w then (0, with_process (Some (app_graceful w)) w) else (1, w).

Fixpoint exec (c : command) (w : sim) : Z * sim :=
  match c with
  | Pgrep _ => (if process w is Some _ then 0 else 1, w)
  | Pkill signal _ =>
      match process w with
      | None => (1, w)
      | Some g =>
          if String.eqb signal "SIGKILL" then (0, with_process None w)
          else if String.eqb signal "SIGTERM" && g then (0, with_process None w)
          else (0, w)
      end
  | MkdirP d =>
      match files w !! d with
      | Some _ => (0, w)
      | None => (0, with_files (<[d := ∅]> (files w)) w)
      end
  | CpR s d =>
      match files w !! s with
      | None => (1, w)
      | Some t =>
          match files w !! d with
          | None => (0, with_files (<[d := t]> (files w)) w)
          | Some td => (0, with_files (<[d := under (basename s) t ∪ td]> (files w)) w)
          end
      end
  | CpRAll s d =>
      match files w !! s, files w !! d with
      | Some ts, Some td =>
          if bool_decide (ts = ∅) then (1, w)
          else (0, with_files (<[d := ts ∪ td]> (files w)) w)
      | _, _ => (1, w)
      end
  | ChmodX d =>
      match files w !! d with
      | Some t => (if has_scripts t then 0 else 1, w)
      | None => (1, w)
      end
  | RmRf d => (0, with_files (delete d (files w)) w)
  | Script p =>
      if bool_decide (p = start_script) &&
         bool_decide (is_Some (files w !! DEPLOY_DIR ≫= (.!! "start.sh")))
      then start_app w else (127, w)
  | Cd d => (if files w !! d is Some _ then 0 else 1, w)
  | Nohup _ =>
      if bool_decide (is_Some (files w !! DEPLOY_DIR ≫= (.!! "app")))
      then start_app w else (127, w)
  | Curl _ => (if process w is Some _ then (if app_healthy w then 0 else 22) else 7, w)
  | AndThen c1 c2 =>
      let '(rc, w1) := exec c1 w in
      if rc =? 0 then exec c2 w1 else (rc, w1)
  | Background c => (0, (exec c w).2)
  end.

Definition SimOS : OS sim := {|
  os_run c _ w := let '(rc, w1) := exec c w in (exit_with rc, w1);
  os_exists p w :=
    bool_decide (is_Some (files w !! p)) ||
    (bool_decide (p = start_script) &&
     bool_decide (is_Some (files w !! DEPLOY_DIR ≫= (.!! "start.sh"))));
  os_sleep _ w := (Val tt, w);
  os_strftime f w := clock w f;
  os_time _ := 0;
  os_print _ w := (Val tt, w)
|}.

(** ** Concrete inputs *)

(** A host with version 1 deployed and no process of the application. *)
Definition idle_host : sim :=
  Sim (<[DEPLOY_DIR := {["start.sh" := "#!/bin/sh"; "app" := "v1"]}]> ∅)
      None true true true (fun _ => "20240115_103000").

(** The same host with the application running. *)
Definition live_host : sim := with_process (Some true) idle_host.

(** The backup path the script computes on these hosts. *)
Definition example_backup_path : string :=
  "/opt/backups/web-application/web-application_20240115_103000".

(** The running host with a directory already at that path: an earlier
    backup, of version v0, taken at the same time of day. *)
Definition stale_backup_host : sim :=
  with_files (<[example_backup_path := {["app" := "v0"]}]> (files live_host)) live_host.

(** The example of the specification: three attempts, the first two
    failing and the third succeeding. *)
Definition third_time_lucky (i : nat) : res completed :=
  if (i <? 2)%nat then exit_with 22 else exit_with 0.

(** The application runs, backup, stop and deploy succeed, the start
    script fails; the rollback that follows succeeds. *)
Definition start_fails : script :=
  answers
    [exit_with 0; exit_with 0; exit_with 0; exit_with 1;
     exit_with 0; exit_with 0; exit_with 0; exit_with 1;
     exit_with 1; exit_with 1; exit_with 0; exit_with 0]
    [DEPLOY_DIR; SOURCE_DIR; start_script; example_backup_path].

(** The application runs, backup, stop, deploy and start succeed, the
    twelve probes of the health check fail, and in the rollback the
    restore command fails. *)
Definition unhealthy_and_restore_fails : script :=
  answers
    ([exit_with 0; exit_with 0; exit_with 0; exit_with 1;
      exit_with 0; exit_with 0; exit_with 0; exit_with 0] ++
     replicate 12 (exit_with 22) ++
     [exit_with 1; exit_with 1; exit_with 1])
    [DEPLOY_DIR; SOURCE_DIR; start_script; example_backup_path].

(** The application does not run and the build directory is missing. *)
Definition source_missing : script := answers [exit_with 1] [].

(** * Properties of events and traces *)

(** A probe of the health endpoint that answered with exit status 0. *)
Definition healthy_probe (e : event) : bool :=
  match e with
  | ERun (Curl _) _ (Val r) => returncode r =? 0
  | _ => false
  end.

Definition health_passed (tr : list event) : bool := existsb healthy_probe tr.

Definition is_probe (e : event) : bool :=
  match e with ERun (Curl _) _ _ => true | _ => false end.

Definition is_sleep (e : event) : bool :=
  match e with ESleep _ _ => true | _ => false end.

Definition is_notify (e : event) : bool :=
  match e with ENotify _ => true | _ => false end.

(** The calls to the operating system in a trace, log lines dropped. *)
Definition is_call (e : event) : bool :=
  match e with ERun _ _ _ | ESleep _ _ => true | _ => false end.

Definition calls (tr : list event) : list event := filter is_call tr.

(** The backup command copied the deployment directory and exited with 0:
    this is exactly when [backup_current_version] returns a path. *)
Definition backup_taken (e : event) : bool :=
  match e with
  | ERun (AndThen (MkdirP _) (CpR src _)) _ (Val r) =>
      String.eqb src DEPLOY_DIR && (returncode r =? 0)
  | _ => false
  end.

Definition rollback_entered (e : event) : bool :=
  match e with
  | ELog WARNING m => String.eqb m "Initiating rollback to previous version..."
  | _ => false
  end.

Fixpoint deletes (c : command) : bool :=
  match c with
  | RmRf _ => true
  | AndThen c1 c2 => deletes c1 || deletes c2
  | Background c => deletes c
  | _ => false
  end.

Definition deletion (e : event) : bool :=
  match e with ERun c _ _ => deletes c | _ => false end.

(** Every entry into [rollback] and every deleting command comes after a
    successful backup. *)
Fixpoint guarded (taken : bool) (tr : list event) : bool :=
  match tr with
  | [] => true
  | e :: tr' =>
      (taken || negb (rollback_entered e || deletion e)) &&
      guarded (taken || backup_taken e) tr'
  end.

Definition backup_entered (e : event) : bool :=
  match e with
  | ELog INFO m => String.eqb m "Creating backup of current version..."
  | ERun (AndThen (MkdirP _) (CpR _ _)) _ _ => true
  | _ => false
  end.

Definition stop_entered (e : event) : bool :=
  match e with
  | ELog INFO m => String.eqb m ("Stopping " +:+ APP_NAME +:+ "...")
  | ERun (Pkill _ _) _ _ => true
  | _ => false
  end.

(** What [run_command] logs before and after the command, and what it
    returns, as functions of the answer of subprocess.run. *)
Definition describe (description : string) : list event :=
  if description is EmptyString then [] else [ELog INFO description].

Definition verdict (r : res completed) : list event :=
  match r with
  | Val p =>
      if returncode p =? 0 then [ELog SUCCESS "Command completed successfully"]
      else ELog ERROR ("Command failed with exit code " +:+ pretty (returncode p)) ::
           (if stderr p is EmptyString then []
            else [ELog ERROR ("Error: " +:+ stderr p)])
  | Exc TimeoutExpired => [ELog ERROR "Command timed out after 5 minutes"]
  | Exc (OSError m) | Exc (UnicodeEncodeError m) =>
      [ELog ERROR ("Failed to run command: " +:+ m)]
  | Exc KeyboardInterrupt => []
  end.

Definition verdict_value (r : res completed) : res bool :=
  match r with
  | Val p => Val (returncode p =? 0)
  | Exc KeyboardInterrupt => Exc KeyboardInterrupt
  | Exc _ => Val false
  end.

(** The three ways a command can fail. *)
Inductive failure : Type :=
  | NonZeroExit (rc : Z) (err : string)
  | TimedOut
  | LaunchError (msg : string).

Definition failure_answer (f : failure) : res completed :=
  match f with
  | NonZeroExit rc err => Val (Completed rc err)
  | TimedOut => Exc TimeoutExpired
  | LaunchError msg => Exc (OSError msg)
  end.

Definition same_kind (f g : failure) : bool :=
  match f, g with
  | NonZeroExit _ _, NonZeroExit _ _ | TimedOut, TimedOut
  | LaunchError _, LaunchError _ => true
  | _, _ => false
  end.

Definition is_failure (f : failure) : bool :=
  match f with
  | NonZeroExit rc _ => negb (rc =? 0)
  | _ => true
  end.

(** Outcomes of a probe of the health endpoint: any failure, whether an
    exit status other than 0 or an error caught by [except Exception],
    makes the loop go on. *)
Definition probe_ok (r : res completed) : bool :=
  match r with
  | Val p => returncode p =? 0
  | Exc _ => false
  end.

Definition probe_failed (r : res completed) : bool :=
  match r with
  | Val p => negb (returncode p =? 0)
  | Exc e => is_Exception e
  end.

(** What the except clause of the health check logs. *)
Definition probe_error (e : exn) : list event :=
  if is_Exception e then [ELog WARNING ("Health check error: " +:+ str e)] else [].

(** What one attempt of the health check logs after its probe; [q] is
    what became of printing the success line. *)
Definition probe_log (attempt : nat) (r : res completed) (q : res unit) : list event :=
  match r with
  | Val p =>
      if returncode p =? 0 then
        match q with
        | Val _ => [ELog SUCCESS "✓ Application is healthy!"]
        | Exc e => probe_error e
        end
      else [ELog WARNING ("Health check failed (attempt " +:+ pretty attempt +:+ ")")]
  | Exc e => probe_error e
  end.

(** What one attempt of the health check returns: [Some true] for
    [return True], [None] for another round of the loop. *)
Definition probe_verdict (r : res completed) (q : res unit) : res (option bool) :=
  match r with
  | Val p =>
      if returncode p =? 0 then
        match q with
        | Val _ => Val (Some true)
        | Exc e => if is_Exception e then Val None else Exc e
        end
      else Val None
  | Exc e => if is_Exception e then Val None else Exc e
  end.

(** [n] probes, the first answering [probe i], with an interval sleep
    between two consecutive probes and none after the last. *)
Fixpoint attempts (probe : nat -> res completed) (i n : nat) : list event :=
  match n with
  | O => []
  | S n' =>
      ERun probe_cmd (Some 5) (probe i) ::
      match n' with
      | O => []
      | S _ => ESleep 5 (Val tt) :: attempts probe (S i) n'
      end
  end.

(** The line with which [rollback] reports how it ended. *)
Definition rollback_verdict (e : event) : bool :=
  match e with
  | ELog SUCCESS m => String.eqb m "Rollback completed successfully"
  | ELog ERROR m => String.eqb m "Rollback failed!"
  | _ => false
  end.

(** What [main] prints before its try block. *)
Definition banner {W} (os : OS W) (w : W) : list event :=
  [EPrint rule;
   EPrint "    AUTOMATED DEPLOYMENT SCRIPT";
   EPrint ("    Application: " +:+ APP_NAME);
   EPrint ("    Version: " +:+ APP_VERSION);
   EPrint ("    Time: " +:+ os_strftime os "%Y-%m-%d %H:%M:%S.%f" w);
   EPrint rule;
   EPrint ""].

(** What [main] prints and sends once the health check has passed. *)
Definition success_report {W} (os : OS W) (start : Z) (w : W) : list event :=
  let elapsed := format_2f (os_time os w - start) in
  [EPrint "";
   EPrint rule;
   ELog SUCCESS "DEPLOYMENT COMPLETED SUCCESSFULLY!";
   ELog SUCCESS ("Time taken: " +:+ elapsed +:+ " seconds");
   EPrint rule;
   ELog INFO "Sending success notification...";
   ENotify (Notification "SUCCESS" APP_NAME APP_VERSION
              (os_strftime os "%Y-%m-%d %H:%M:%S" w)
              ("Deployment completed in " +:+ elapsed +:+ "s"))].

(** Events that are neither part of a backup nor part of a stop. *)
Definition no_backup_no_stop (e : event) : bool :=
  negb (backup_entered e || stop_entered e).

(** Events that neither enter [rollback] nor delete anything. *)
Definition no_rollback (e : event) : bool :=
  negb (rollback_entered e || deletion e).


Definition no_notify (e : event) : bool := negb (is_notify e).

Definition any_event (e : event) : bool := true.

(** The invariant of [main] behind the guard: what the trace holds is
    guarded, and a truthy [backup_path] stands for a backup that was
    taken. *)
Definition backed {W} (st : St W) : Prop :=
  guarded false (trace st) = true /\
  (truthy (main_backup_path st) = true -> existsb backup_taken (trace st) = true).

Definition preserves {W A} (m : Prog W A) : Prop :=
  forall st, backed st -> backed (m st).2.

(** [quietly P m]: [m] only appends events that satisfy [P]; unlike
    [emits], it may assign the local variable of [main]. *)
Definition quietly {W A} (P : event -> bool) (m : Prog W A) : Prop :=
  forall st, exists evs,
    trace (m st).2 = trace st ++ evs /\ forallb P evs = true.






(** A run in which nothing fails: the application is not running, the
    three deployment commands and the start script exit with 0 and the
    first probe of the health endpoint succeeds. *)
Definition fresh_install : script :=
  answers [exit_with 1] [SOURCE_DIR; start_script].

(** The notifications of a trace, and what a part of [main] owes about
    them: one when it returns 0, at most one on every other way out. *)
Definition notifications (evs : list event) : nat := length (filter is_notify evs).

Definition notify_ok (r : res Z) (evs : list event) : Prop :=
  match r with
  | Val code =>
      if code =? 0 then notifications evs = 1%nat else (notifications evs <= 1)%nat
  | Exc _ => (notifications evs <= 1)%nat
  end.

Definition reports {W} (m : Prog W Z) : Prop :=
  forall st, exists evs,
    trace (m st).2 = trace st ++ evs /\ notify_ok (m st).1 evs.

(** The command of a call, and whether the call exited with status 0. *)
Definition command_of (e : event) : option command :=
  match e with ERun c _ _ => Some c | _ => None end.

Definition commands (evs : list event) : list command := omap command_of evs.

Definition run_ok (e : event) : bool :=
  match e with
  | ERun _ _ (Val p) => returncode p =? 0
  | _ => false
  end.

(** The three commands of [deploy_new_version], in order. *)
Definition deploy_plan : list command :=
  [MkdirP DEPLOY_DIR; CpRAll SOURCE_DIR DEPLOY_DIR; ChmodX DEPLOY_DIR].

(** The timeouts the script gives to subprocess.run: 300 seconds through
    [run_command], 5 seconds for a probe of the health endpoint, and none
    for the status query. *)
Definition timed (e : event) : bool :=
  match e with
  | ERun (Pgrep _) t _ => bool_decide (t = None)
  | ERun (Curl _) t _ => bool_decide (t = Some 5)
  | ERun _ t _ => bool_decide (t = Some 300)
  | _ => true
  end.

(** Events that are no call to the operating system. *)
Definition no_call (e : event) : bool := negb (is_call e).

(** The cost of a trace, counting [a] for every second slept and [b] for
    every command spawned. *)
Definition cost (a b : nat) (e : event) : nat :=
  match e with
  | ESleep n _ => a * Z.to_nat n
  | ERun _ _ _ => b
  | _ => 0
  end.

Definition total_cost (a b : nat) (evs : list event) : nat :=
  foldr (fun e n => cost a b e + n)%nat 0%nat evs.

Definition spends {W A} (a b n : nat) (m : Prog W A) : Prop :=
  forall st, exists evs,
    trace (m st).2 = trace st ++ evs /\ (total_cost a b evs <= n)%nat.

(** A run in which everything that can take time does: the application is
    running and ignores SIGTERM, every probe of the health endpoint fails,
    and the last sleep of the rollback that follows is interrupted from the
    keyboard, so that the rollback is run a second time. *)
Definition slowest_run : script := {|
  on_run i _ := if ((9 <=? i) && (i <=? 20))%nat then exit_with 1 else exit_with 0;
  on_sleep k := if (k =? 16)%nat then Exc KeyboardInterrupt else Val tt;
  on_exists _ := true;
  on_strftime _ := "20240115_103000"
|}.

(** The start command, in either of its two forms. *)
Definition is_start (e : event) : bool :=
  match e with
  | ERun (Script _) _ _ | ERun (Background _) _ _ => true
  | _ => false
  end.

(** The three commands of [deploy_new_version]. *)
Definition deploys (e : event) : bool :=
  match e with
  | ERun (MkdirP _) _ _ | ERun (CpRAll _ _) _ _ | ERun (ChmodX _) _ _ => true
  | _ => false
  end.

(** What [main] does once the new version is in place: start it, probe
    it, roll back, notify. *)
Definition after_deploy (e : event) : bool :=
  is_start e || is_probe e || rollback_entered e || deletion e || is_notify e.

(** A command of [deploy_new_version] that [run_command] reports as
    failed: it exited with another status than 0, timed out or could not
    be launched. *)
Definition deploy_refused (e : event) : bool :=
  deploys e &&
  match e with
  | ERun _ _ (Val p) => negb (returncode p =? 0)
  | ERun _ _ (Exc x) => is_Exception x
  | _ => false
  end.

(** A part of [main] either adds only events that have [P], or it ends
    with the line [l], after events that all have [Q], and returns 1. *)
Definition gives_up {W} (l : event) (P Q : event -> bool) (m : Prog W Z) : Prop :=
  forall st, exists evs,
    trace (m st).2 = trace st ++ evs /\
    (forallb P evs = true \/
     exists evs', evs = evs' ++ [l] /\ forallb Q evs' = true /\ (m st).1 = Val 1).

(** The application runs and is stopped after a backup, and the
    deployment directory cannot be created. *)
Definition mkdir_fails : script :=
  answers [exit_with 0; exit_with 0; exit_with 0; exit_with 1; exit_with 1]
          [DEPLOY_DIR; SOURCE_DIR].

(** * Reasoning about traces *)

Section Traces.
Context {W : Type} (os : OS W).

Local Abbreviation M := (Prog W).

(** [emits v P m]: started with the local variable of [main] equal to
    [v], and whatever the operating system answers, [m] only appends
    events that satisfy [P] to the trace and leaves the variable alone. *)
Definition emits {A} (v : option string) (P : event -> bool) (m : M A) : Prop :=
  forall st, main_backup_path st = v ->
    exists evs,
      trace (m st).2 = trace st ++ evs /\
      main_backup_path (m st).2 = v /\
      forallb P evs = true.

Lemma emits_ret {A} v P (a : A) : emits v P (ret a).
Proof. intros st Hv. exists []. by rewrite app_nil_r. Qed.

Lemma emits_bind {A B} v P (m : M A) (k : A -> M B) :
  emits v P m -> (forall a, emits v P (k a)) -> emits v P (bind m k).
Proof.
  intros Hm Hk st Hv. unfold bind.
  destruct (Hm st Hv) as (evs1 & Ht1 & Hb1 & HP1).
  destruct (m st) as [[a|e] st1]; simpl in *.
  - destruct (Hk a st1 Hb1) as (evs2 & Ht2 & Hb2 & HP2).
    exists (evs1 ++ evs2). rewrite Ht2, Ht1, app_assoc, forallb_app, HP1, HP2.
    done.
  - by exists evs1.
Qed.

Lemma emits_bind_assoc {A B C} v P (m : M A) (k1 : A -> M B) (k2 : B -> M C) :
  emits v P (bind m (fun a => bind (k1 a) k2)) -> emits v P (bind (bind m k1) k2).
Proof.
  intros H st Hv. specialize (H st Hv). unfold bind in *.
  by destruct (m st) as [[a|e] st1].
Qed.

Lemma emits_bind_ret {A B} v P (a : A) (k : A -> M B) :
  emits v P (k a) -> emits v P (bind (ret a) k).
Proof. intros H st. apply H. Qed.

Lemma emits_bind_get {B} v P (k : option string -> M B) :
  emits v P (k v) -> emits v P (bind get_backup_path k).
Proof. intros H st Hv. unfold bind, get_backup_path. rewrite Hv. by apply H. Qed.

Lemma emits_try {A} v P (body : M A) (handler : exn -> option (M A)) :
  emits v P body ->
  (forall e h, handler e = Some h -> emits v P h) ->
  emits v P (try_except body handler).
Proof.
  intros Hm Hh st Hv. unfold try_except.
  destruct (Hm st Hv) as (evs1 & Ht1 & Hb1 & HP1).
  destruct (body st) as [[a|e] st1]; simpl in *.
  - by exists evs1.
  - destruct (handler e) as [h|] eqn:He; simpl.
    + destruct (Hh e h He st1 Hb1) as (evs2 & Ht2 & Hb2 & HP2).
      exists (evs1 ++ evs2). rewrite Ht2, Ht1, app_assoc, forallb_app, HP1, HP2.
      done.
    + by exists evs1.
Qed.

Lemma emits_emit v P e : P e = true -> emits v P (emit e).
Proof. intros H st Hv. exists [e]. simpl. by rewrite H. Qed.

Lemma emits_run v P c t :
  (forall r, P (ERun c t r) = true) -> emits v P (subprocess_run os c t).
Proof.
  intros H st Hv. unfold subprocess_run.
  destruct (os_run os c t (world st)) as [r w]. exists [ERun c t r]. simpl.
  by rewrite H.
Qed.

Lemma emits_sleep v P n :
  (forall r, P (ESleep n r) = true) -> emits v P (time_sleep os n).
Proof.
  intros H st Hv. unfold time_sleep.
  destruct (os_sleep os n (world st)) as [r w]. exists [ESleep n r]. simpl.
  by rewrite H.
Qed.

Lemma emits_print_encoded v P m :
  P (ELog SUCCESS m) = true -> emits v P (print_success_encoded os m).
Proof.
  intros H st Hv. unfold print_success_encoded.
  destruct (os_print os m (world st)) as [[[]|e] w].
  - exists [ELog SUCCESS m]. simpl. by rewrite H.
  - exists []. by rewrite app_nil_r.
Qed.

Lemma emits_exists v P p :
  (forall b, P (EExists p b) = true) -> emits v P (path_exists os p).
Proof. intros H st Hv. eexists [_]. simpl. by rewrite H. Qed.

Lemma emits_strftime v P f : emits v P (strftime os f).
Proof. intros st Hv. exists []. by rewrite app_nil_r. Qed.

Lemma emits_time v P : emits v P (time_time os).
Proof. intros st Hv. exists []. by rewrite app_nil_r. Qed.

Lemma emits_weaken {A} v (P Q : event -> bool) (m : M A) :
  (forall e, P e = true -> Q e = true) -> emits v P m -> emits v Q m.
Proof.
  intros HPQ Hm st Hv. destruct (Hm st Hv) as (evs & Ht & Hb & HP).
  exists evs. split_and!; [done..|].
  rewrite forallb_forall in *. auto.
Qed.

(** What [emits] says about one run. *)
Lemma emits_run_from {A} v P (m : M A) st r st' :
  emits v P m -> main_backup_path st = v -> m st = (r, st') ->
  exists evs, trace st' = trace st ++ evs /\ main_backup_path st' = v /\
              forallb P evs = true.
Proof. intros Hm Hv Hr. specialize (Hm st Hv). by rewrite Hr in Hm. Qed.

End Traces.

(** Proof search for [emits]: follow the structure of the code. *)
Ltac emits_side := intros; try reflexivity; try (simpl; done).

Ltac emits_step :=
  lazymatch goal with
  | |- emits _ _ (ret _) => apply emits_ret
  | |- emits _ _ (emit _) => apply emits_emit; emits_side
  | |- emits _ _ (print _) => apply emits_emit; emits_side
  | |- emits _ _ (print_info _) => apply emits_emit; emits_side
  | |- emits _ _ (print_success _) => apply emits_emit; emits_side
  | |- emits _ _ (print_warning _) => apply emits_emit; emits_side
  | |- emits _ _ (print_error _) => apply emits_emit; emits_side
  | |- emits _ _ (print_success_encoded _ _) => apply emits_print_encoded; emits_side
  | |- emits _ _ (subprocess_run _ _ _) => apply emits_run; emits_side
  | |- emits _ _ (time_sleep _ _) => apply emits_sleep; emits_side
  | |- emits _ _ (path_exists _ _) => apply emits_exists; emits_side
  | |- emits _ _ (strftime _ _) => apply emits_strftime
  | |- emits _ _ (time_time _) => apply emits_time
  | |- emits _ _ (bind get_backup_path _) => apply emits_bind_get; cbn [truthy]
  | |- emits _ _ (bind (if ?b then _ else ret ?c) _) =>
      lazymatch type of c with
      | command => destruct b
      | _ => apply emits_bind; [ | intros ? ]
      end
  | |- emits _ _ (bind (bind _ (fun _ => ret ?c)) _) =>
      lazymatch type of c with
      | command => apply emits_bind_assoc
      | _ => apply emits_bind; [ | intros ? ]
      end
  | |- emits _ _ (bind (bind _ (fun _ => bind _ (fun _ => ret ?c))) _) =>
      lazymatch type of c with
      | command => apply emits_bind_assoc
      | _ => apply emits_bind; [ | intros ? ]
      end
  | |- emits _ _ (bind (ret _) _) => apply emits_bind_ret
  | |- emits _ _ (bind _ _) => apply emits_bind; [ | intros ? ]
  | |- emits _ _ (try_except _ _) =>
      apply emits_try; [ | intros [] ? ?; simplify_eq/= ]
  | |- emits _ _ (if ?b then _ else _) => destruct b
  | |- emits _ _ (match ?x with _ => _ end) => destruct x
  end.

Create HintDb script.
#[global] Hint Unfold run_command check_app_running force_kill stop_application
  backup_current_version deploy_new_version start_application health_attempt
  health_check_with health_check rollback send_notification rollback_if_backup
  main_from_health_check main_from_deploy main_from_stop main_except : script.

Ltac solve_emits :=
  repeat (first
    [ assumption
    | match goal with
      | IH : forall a, emits _ _ (health_check_loop _ _ _ a) |- _ => apply IH
      | H : forall v N r a, emits v _ (health_check_loop _ N r a)
        |- emits _ _ (health_check_loop _ _ _ _) => apply H
      end
    | emits_step
    | progress autounfold with script ]).

(** The loop of the health check, for a property that its events have. *)
Ltac solve_loop_emits :=
  let r := fresh "r" in let IH := fresh "IH" in
  intros ? ? r; induction r as [|r IH]; intros ?; cbn [health_check_loop];
  solve_emits.

(** * The command lines

    [render] gives back the command lines as the script writes them. *)

Example render_graceful : render graceful_cmd = "pkill -SIGTERM -f web-application".
Proof. reflexivity. Qed.

Example render_force : render force_cmd = "pkill -SIGKILL -f web-application".
Proof. reflexivity. Qed.

Example render_status : render status_cmd = "pgrep -f web-application".
Proof. reflexivity. Qed.

Example render_backup :
  render (backup_cmd example_backup_path) =
  "mkdir -p /opt/backups/web-application && cp -r /opt/applications/web-application /opt/backups/web-application/web-application_20240115_103000".
Proof. reflexivity. Qed.

Example render_restore :
  render (restore_cmd example_backup_path) =
  "rm -rf /opt/applications/web-application && cp -r /opt/backups/web-application/web-application_20240115_103000 /opt/applications/web-application".
Proof. reflexivity. Qed.

Example render_copy :
  render (CpRAll SOURCE_DIR DEPLOY_DIR) =
  "cp -r /tmp/builds/web-application/* /opt/applications/web-application/".
Proof. reflexivity. Qed.

Example render_chmod :
  render (ChmodX DEPLOY_DIR) = "chmod +x /opt/applications/web-application/*.sh".
Proof. reflexivity. Qed.

Example render_alternative_start :
  render alternative_start_cmd =
  "cd /opt/applications/web-application && nohup ./app &".
Proof. reflexivity. Qed.

Example render_probe : render probe_cmd = "curl -sf http://localhost:8080/health".
Proof. reflexivity. Qed.

Example upper_status : upper "failure" = "FAILURE".
Proof. reflexivity. Qed.

Example format_elapsed : format_2f 1234 = "12.34".
Proof. reflexivity. Qed.

(** * Symbolic execution *)

Section Execution.
Context {W : Type} (os : OS W).

Lemma bind_assoc_at {A B C} (m : Prog W A) (k1 : A -> Prog W B) (k2 : B -> Prog W C) st :
  bind (bind m k1) k2 st = bind m (fun a => bind (k1 a) k2) st.
Proof. unfold bind. by destruct (m st) as [[a|e] st1]. Qed.

Lemma run_command_eq c d st :
  run_command os c d st =
  let r := os_run os c (Some 300) (world st) in
  (verdict_value r.1,
   MkSt r.2 (trace st ++ describe d ++ ERun c (Some 300) r.1 :: verdict r.1)
        (main_backup_path st)).
Proof.
  unfold run_command, bind, try_except, subprocess_run.
  destruct d as [|a d]; simpl;
    destruct (os_run os c (Some 300) _) as [[p|[]] w]; simpl;
    try destruct (returncode p =? 0); simpl; try destruct (stderr p); simpl;
    rewrite <- ?app_assoc; reflexivity.
Qed.

Lemma check_app_running_eq st :
  check_app_running os st =
  let r := os_run os status_cmd None (world st) in
  let tr := trace st ++ [ELog INFO "Checking if application is running...";
                         ERun status_cmd None r.1] in
  match r.1 with
  | Val p =>
      if returncode p =? 0 then
        (Val true, MkSt r.2 (tr ++ [ELog WARNING (APP_NAME +:+ " is currently running")])
                        (main_backup_path st))
      else
        (Val false, MkSt r.2 (tr ++ [ELog INFO (APP_NAME +:+ " is not running")])
                         (main_backup_path st))
  | Exc e => (Exc e, MkSt r.2 tr (main_backup_path st))
  end.
Proof.
  unfold check_app_running, bind, subprocess_run, print_info, print_warning, emit.
  simpl. destruct (os_run os status_cmd None _) as [[p|e] w]; simpl;
    try destruct (returncode p =? 0); simpl; rewrite <- ?app_assoc; reflexivity.
Qed.

End Execution.

Lemma calls_app tr1 tr2 : calls (tr1 ++ tr2) = calls tr1 ++ calls tr2.
Proof. apply filter_app. Qed.

(** * The command runner *)

(** C9, as the code has it: [run_command] answers with one boolean.  A
    non-zero exit, a timeout and a launch error all make it return False,
    so the result does not tell them apart; what does is the error line
    logged, which differs between any two kinds of failure. *)
Theorem run_command_failures_share_one_value {W} (os : OS W) c d st f :
  is_failure f = true ->
  (os_run os c (Some 300) (world st)).1 = failure_answer f ->
  (run_command os c d st).1 = Val false /\
  trace (run_command os c d st).2 =
    trace st ++ describe d ++ ERun c (Some 300) (failure_answer f)
      :: verdict (failure_answer f) /\
  (forall g, is_failure g = true -> same_kind f g = false ->
     verdict (failure_answer f) <> verdict (failure_answer g)).
Proof.
  intros Hf Hr. rewrite run_command_eq. simpl. rewrite Hr. split_and!.
  - destruct f as [rc err| |msg]; simpl in *; [|done..].
    by destruct (rc =? 0).
  - done.
  - intros g Hg Hk.
    destruct f as [rc err| |msg], g as [rc' err'| |msg']; simpl in *;
      try discriminate;
      repeat match goal with
             | H : negb (?x =? 0) = true |- _ => destruct (x =? 0); [discriminate|clear H]
             end; cbv [String.append]; congruence.
Qed.

Lemma run_command_failures_share_one_value_witness :
  (run_command (ScriptOS (answers [failure_answer TimedOut] []))
     (MkdirP DEPLOY_DIR) "Creating deployment directory" (init (0, 0)%nat)).1 = Val false /\
  trace (run_command (ScriptOS (answers [failure_answer TimedOut] []))
     (MkdirP DEPLOY_DIR) "Creating deployment directory" (init (0, 0)%nat)).2 =
    [ELog INFO "Creating deployment directory";
     ERun (MkdirP DEPLOY_DIR) (Some 300) (Exc TimeoutExpired);
     ELog ERROR "Command timed out after 5 minutes"] /\
  (forall g, is_failure g = true -> same_kind TimedOut g = false ->
     verdict (failure_answer TimedOut) <> verdict (failure_answer g)).
Proof.
  apply (run_command_failures_share_one_value
           (ScriptOS (answers [failure_answer TimedOut] []))
           (MkdirP DEPLOY_DIR) "Creating deployment directory" (init (0, 0)%nat) TimedOut);
    reflexivity.
Defined.

(** C9 as the specification words it fails: the three kinds of failure are
    one and the same result for the caller. *)
Lemma run_command_failure_kinds_collapse :
  let run f :=
    (run_command (ScriptOS (answers [failure_answer f] []))
       (MkdirP DEPLOY_DIR) "" (init (0, 0)%nat)).1 in
  run (NonZeroExit 1 "") = run TimedOut /\
  run TimedOut = run (LaunchError "No such file or directory").
Proof. split; reflexivity. Qed.

(** * The process controller *)

(** C7: when the graceful signal is delivered, the application is still
    running after the grace period and the forced-kill command succeeds,
    [stop_application] sleeps the force delay and returns True.  The calls
    it makes end with that sleep: the status is queried once, before the
    kill, and never after it. *)
Theorem stop_force_kill_reports_success {W} (os : OS W) st p1 w1 w2 p2 w3 p3 w4 w5 :
  os_run os graceful_cmd (Some 300) (world st) = (Val p1, w1) -> returncode p1 = 0 ->
  os_sleep os 5 w1 = (Val tt, w2) ->
  os_run os status_cmd None w2 = (Val p2, w3) -> returncode p2 = 0 ->
  os_run os force_cmd (Some 300) w3 = (Val p3, w4) -> returncode p3 = 0 ->
  os_sleep os 2 w4 = (Val tt, w5) ->
  (stop_application os st).1 = Val true /\
  world (stop_application os st).2 = w5 /\
  calls (trace (stop_application os st).2) =
    calls (trace st) ++
    [ERun graceful_cmd (Some 300) (Val p1); ESleep 5 (Val tt);
     ERun status_cmd None (Val p2);
     ERun force_cmd (Some 300) (Val p3); ESleep 2 (Val tt)].
Proof.
  intros H1 Hp1 H2 H3 Hp2 H4 Hp3 H5.
  unfold stop_application, force_kill, bind, print_info, print_success,
    print_warning, emit, time_sleep. simpl.
  rewrite run_command_eq. simpl. rewrite H1. simpl. rewrite Hp1. simpl.
  rewrite H2. rewrite check_app_running_eq. simpl. rewrite H3. simpl.
  rewrite Hp2. simpl. rewrite run_command_eq. simpl. rewrite H4. simpl.
  rewrite Hp3. simpl. rewrite H5. simpl.
  split_and!; [done..|].
  rewrite !calls_app. simpl. rewrite <- !app_assoc. reflexivity.
Qed.

Lemma stop_force_kill_reports_success_witness :
  (stop_application (ScriptOS (answers [] [])) (init (0, 0)%nat)).1 = Val true /\
  world (stop_application (ScriptOS (answers [] [])) (init (0, 0)%nat)).2 = (3, 2)%nat /\
  calls (trace (stop_application (ScriptOS (answers [] [])) (init (0, 0)%nat)).2) =
    calls (trace (init (0, 0)%nat)) ++
    [ERun graceful_cmd (Some 300) (exit_with 0); ESleep 5 (Val tt);
     ERun status_cmd None (exit_with 0);
     ERun force_cmd (Some 300) (exit_with 0); ESleep 2 (Val tt)].
Proof.
  apply (stop_force_kill_reports_success (ScriptOS (answers [] [])) (init (0, 0)%nat)
           (Completed 0 "") (1, 0)%nat (1, 1)%nat (Completed 0 "") (2, 1)%nat
           (Completed 0 "") (3, 1)%nat (3, 2)%nat);
    reflexivity.
Defined.

(** C10: on a host where no process matches, [stop_application] returns
    False.  Both pkill commands exit with status 1, the status pkill
    gives when it matched nothing; there is no sleep and no status query
    between them; the host is left as it was.  [check_app_running] says
    "not running" in the same state: stopping a stopped application is
    reported as a failure. *)
Theorem stop_without_process_reports_failure (st : St sim) :
  process (world st) = None ->
  (check_app_running SimOS st).1 = Val false /\
  (stop_application SimOS st).1 = Val false /\
  world (stop_application SimOS st).2 = world st /\
  calls (trace (stop_application SimOS st).2) =
    calls (trace st) ++
    [ERun graceful_cmd (Some 300) (exit_with 1);
     ERun force_cmd (Some 300) (exit_with 1)].
Proof.
  intros Hp. split.
  { rewrite check_app_running_eq. simpl. by rewrite Hp. }
  unfold stop_application, force_kill, bind, print_info, print_warning, emit. simpl.
  rewrite run_command_eq. simpl. rewrite Hp. simpl.
  rewrite run_command_eq. simpl. rewrite Hp. simpl.
  split_and!; [done..|].
  rewrite !calls_app. simpl. rewrite <- !app_assoc. reflexivity.
Qed.

Lemma stop_without_process_reports_failure_witness :
  (check_app_running SimOS (init idle_host)).1 = Val false /\
  (stop_application SimOS (init idle_host)).1 = Val false /\
  world (stop_application SimOS (init idle_host)).2 = world (init idle_host) /\
  calls (trace (stop_application SimOS (init idle_host)).2) =
    calls (trace (init idle_host)) ++
    [ERun graceful_cmd (Some 300) (exit_with 1);
     ERun force_cmd (Some 300) (exit_with 1)].
Proof. apply (stop_without_process_reports_failure (init idle_host)). reflexivity. Defined.

(** * The health prober *)

Section Prober.
Context {W : Type} (os : OS W).

Lemma health_attempt_eq attempt st :
  health_attempt os attempt st =
  let r := os_run os probe_cmd (Some 5) (world st) in
  let q := os_print os "✓ Application is healthy!" r.2 in
  (probe_verdict r.1 q.1,
   MkSt (if probe_ok r.1 then q.2 else r.2)
        (trace st ++ ERun probe_cmd (Some 5) r.1 :: probe_log attempt r.1 q.1)
        (main_backup_path st)).
Proof.
  unfold health_attempt, bind, try_except, subprocess_run, print_success_encoded.
  destruct (os_run os probe_cmd (Some 5) _) as [[p|[]] w]; simpl;
    try (destruct (returncode p =? 0); simpl;
         [destruct (os_print os _ w) as [[[]|[]] w']; simpl|]);
    rewrite <- ?app_assoc; reflexivity.
Qed.

End Prober.

Lemma calls_probe_log attempt r q : calls (probe_log attempt r q) = [].
Proof.
  destruct r as [p|e]; simpl.
  - destruct (returncode p =? 0); [|done].
    destruct q as [|e]; [done|]. by destruct e.
  - by destruct e.
Qed.

Section Probing.
Variable probe : nat -> res completed.

Local Abbreviation os := (ScriptOS (probing probe)).

(** One iteration of the loop whose probe fails. *)
Lemma probing_loop_failed_step N r attempt (st : St (nat * nat)) :
  probe_failed (probe (world st).1) = true ->
  health_check_loop os N (S r) attempt st =
  health_check_loop os N r (S attempt)
    (MkSt (S (world st).1, if (attempt <? N)%nat then S (world st).2 else (world st).2)
          (trace st ++
           [ELog INFO ("Health check attempt " +:+ pretty attempt +:+ "/" +:+ pretty N);
            ERun probe_cmd (Some 5) (probe (world st).1)] ++
           probe_log attempt (probe (world st).1) (Val tt) ++
           (if (attempt <? N)%nat then [ESleep 5 (Val tt)] else []))
          (main_backup_path st)).
Proof.
  intros Hf. cbn [health_check_loop]. unfold bind at 1. unfold print_info at 1, emit at 1.
  unfold bind at 1. rewrite health_attempt_eq. cbv zeta.
  cbn [world trace main_backup_path fst snd ScriptOS os_run os_print probing on_run].
  destruct (probe (world st).1) as [p|e]; cbn [probe_failed] in Hf;
    cbn [probe_verdict probe_ok probe_log].
  - destruct (returncode p =? 0) eqn:Hrc; [done|].
    destruct (attempt <? N)%nat; unfold bind, time_sleep, ret; simpl;
      rewrite <- ?app_assoc; simpl; by rewrite ?app_nil_r.
  - rewrite Hf. unfold probe_error. rewrite Hf.
    destruct (attempt <? N)%nat; unfold bind, time_sleep, ret; simpl;
      rewrite <- ?app_assoc; simpl; by rewrite ?app_nil_r.
Qed.

(** One iteration of the loop whose probe succeeds. *)
Lemma probing_loop_ok_step N r attempt (st : St (nat * nat)) :
  probe_ok (probe (world st).1) = true ->
  health_check_loop os N (S r) attempt st =
  (Val true,
   MkSt (S (world st).1, (world st).2)
        (trace st ++
         [ELog INFO ("Health check attempt " +:+ pretty attempt +:+ "/" +:+ pretty N);
          ERun probe_cmd (Some 5) (probe (world st).1);
          ELog SUCCESS "✓ Application is healthy!"])
        (main_backup_path st)).
Proof.
  intros Hok. cbn [health_check_loop]. unfold bind at 1. unfold print_info at 1, emit at 1.
  unfold bind at 1. rewrite health_attempt_eq. cbv zeta.
  cbn [world trace main_backup_path fst snd ScriptOS os_run os_print probing on_run].
  destruct (probe (world st).1) as [p|e]; cbn [probe_ok] in Hok; [|done].
  cbn [probe_verdict probe_ok probe_log]. rewrite Hok.
  unfold ret. simpl. rewrite <- ?app_assoc. reflexivity.
Qed.

Lemma probing_loop_all_fail N remaining :
  forall attempt (st : St (nat * nat)),
    (attempt + remaining = S N)%nat ->
    (forall t, (t < remaining)%nat ->
               probe_failed (probe ((world st).1 + t)%nat) = true) ->
    (health_check_loop os N remaining attempt st).1 = Val false /\
    calls (trace (health_check_loop os N remaining attempt st).2) =
      calls (trace st) ++ attempts probe (world st).1 remaining.
Proof.
  induction remaining as [|r IH]; intros attempt st Hsum Hf.
  - simpl. split; [done|]. rewrite calls_app. reflexivity.
  - pose proof (Hf 0%nat ltac:(lia)) as H0. rewrite Nat.add_0_r in H0.
    rewrite probing_loop_failed_step by done.
    match goal with
    | |- context [health_check_loop _ N r (S attempt) ?s] =>
        destruct (IH (S attempt) s ltac:(lia)) as [Hr Hc]
    end.
    { intros t Ht. cbn [world fst]. replace (S (world st).1 + t)%nat
        with ((world st).1 + S t)%nat by lia. apply Hf. lia. }
    split; [done|]. rewrite Hc. cbn [world trace fst].
    rewrite !calls_app, calls_probe_log. simpl.
    destruct r as [|r'].
    + assert (Hlt : (attempt <? N)%nat = false) by (apply Nat.ltb_ge; lia).
      rewrite Hlt. by rewrite <- app_assoc.
    + assert (Hlt : (attempt <? N)%nat = true) by (apply Nat.ltb_lt; lia).
      rewrite Hlt. simpl. by rewrite <- app_assoc.
Qed.

Lemma probing_loop_first_success N k :
  forall remaining attempt (st : St (nat * nat)),
    (k < remaining)%nat ->
    (attempt + remaining = S N)%nat ->
    (forall t, (t < k)%nat -> probe_failed (probe ((world st).1 + t)%nat) = true) ->
    probe_ok (probe ((world st).1 + k)%nat) = true ->
    (health_check_loop os N remaining attempt st).1 = Val true /\
    calls (trace (health_check_loop os N remaining attempt st).2) =
      calls (trace st) ++ attempts probe (world st).1 (S k).
Proof.
  induction k as [|k IH]; intros remaining attempt st Hk Hsum Hf Hok.
  - destruct remaining as [|r]; [lia|]. rewrite Nat.add_0_r in Hok.
    rewrite probing_loop_ok_step by done. simpl. split; [done|].
    rewrite calls_app. reflexivity.
  - destruct remaining as [|r]; [lia|].
    pose proof (Hf 0%nat ltac:(lia)) as H0. rewrite Nat.add_0_r in H0.
    rewrite probing_loop_failed_step by done.
    match goal with
    | |- context [health_check_loop _ N r (S attempt) ?s] =>
        destruct (IH r (S attempt) s ltac:(lia) ltac:(lia)) as [Hr Hc]
    end.
    { intros t Ht. cbn [world fst]. replace (S (world st).1 + t)%nat
        with ((world st).1 + S t)%nat by lia. apply Hf. lia. }
    { cbn [world fst]. replace (S (world st).1 + k)%nat
        with ((world st).1 + S k)%nat by lia. done. }
    split; [done|]. rewrite Hc. cbn [world trace fst].
    rewrite !calls_app, calls_probe_log. simpl.
    assert (Hlt : (attempt <? N)%nat = true) by (apply Nat.ltb_lt; lia).
    rewrite Hlt. simpl. by rewrite <- app_assoc.
Qed.

End Probing.

Lemma attempts_probes probe i n :
  length (filter is_probe (attempts probe i n)) = n /\
  length (filter is_sleep (attempts probe i n)) = (n - 1)%nat.
Proof.
  revert i. induction n as [|n IH]; intros i; [done|].
  destruct n as [|n']; [done|].
  destruct (IH (S i)) as [IH1 IH2].
  change (attempts probe i (S (S n'))) with
    (ERun probe_cmd (Some 5) (probe i) :: ESleep 5 (Val tt) :: attempts probe (S i) (S n')).
  split.
  - change (S (length (filter is_probe (attempts probe (S i) (S n')))) = S (S n')).
    by rewrite IH1.
  - change (S (length (filter is_sleep (attempts probe (S i) (S n')))) = (S (S n') - 1)%nat).
    rewrite IH2. lia.
Qed.

Lemma filter_calls (P : event -> bool) tr :
  (forall e, P e = true -> is_call e = true) ->
  filter P (calls tr) = filter P tr.
Proof.
  intros HP. unfold calls. induction tr as [|e tr IH]; [done|].
  rewrite !filter_cons. destruct (decide (is_call e)) as [Hc|Hc].
  - rewrite filter_cons. by rewrite IH.
  - rewrite IH. destruct (decide (P e)) as [Hp|Hp]; [|done].
    exfalso. apply Hc. apply Is_true_true. apply HP. by apply Is_true_true.
Qed.

(** On a host whose stdout takes the success line, and against any probe
    function, the health check with [N] attempts
    - returns False when the first [N] probes all fail, after exactly [N]
      probes and [N - 1] sleeps, one between each two consecutive probes
      and none after the last;
    - returns True when the probe first succeeds at attempt [k <= N],
      after exactly [k] probes and [k - 1] sleeps.
    [health_check] is this loop with [N = 12]. *)
Theorem health_check_probe_counts (probe : nat -> res completed) (N : nat) :
  let run := health_check_with (ScriptOS (probing probe)) N (init (0, 0)%nat) in
  health_check (ScriptOS (probing probe)) (init (0, 0)%nat) =
    health_check_with (ScriptOS (probing probe)) 12 (init (0, 0)%nat) /\
  ((forall i, (i < N)%nat -> probe_failed (probe i) = true) ->
   run.1 = Val false /\
   calls (trace run.2) = attempts probe 0 N /\
   length (filter is_probe (trace run.2)) = N /\
   length (filter is_sleep (trace run.2)) = (N - 1)%nat) /\
  (forall k, (1 <= k <= N)%nat ->
     (forall i, (i < k - 1)%nat -> probe_failed (probe i) = true) ->
     probe_ok (probe (k - 1)%nat) = true ->
     run.1 = Val true /\
     calls (trace run.2) = attempts probe 0 k /\
     length (filter is_probe (trace run.2)) = k /\
     length (filter is_sleep (trace run.2)) = (k - 1)%nat).
Proof.
  intros run. subst run. split; [reflexivity|].
  unfold health_check_with, bind, print_info, emit. simpl.
  split.
  - intros Hf.
    match goal with
    | |- context [health_check_loop _ N N 1%nat ?s] =>
        destruct (probing_loop_all_fail probe N N 1%nat s ltac:(lia)) as [Hr Hc]
    end; [done|].
    rewrite <- (filter_calls is_probe), <- (filter_calls is_sleep), Hc
      by (by intros [| |[]| | |]).
    simpl. by destruct (attempts_probes probe 0 N).
  - intros k Hk Hf Hok.
    match goal with
    | |- context [health_check_loop _ N N 1%nat ?s] =>
        destruct (probing_loop_first_success probe N (k - 1) N 1%nat s
                    ltac:(lia) ltac:(lia)) as [Hr Hc]
    end; [done..|].
    replace (S (k - 1)) with k in Hc by lia.
    rewrite <- (filter_calls is_probe), <- (filter_calls is_sleep), Hc
      by (by intros [| |[]| | |]).
    simpl. by destruct (attempts_probes probe 0 k).
Qed.

Lemma health_check_probe_counts_witness :
  (health_check_with (ScriptOS (probing third_time_lucky)) 3 (init (0, 0)%nat)).1 = Val true /\
  calls (trace (health_check_with (ScriptOS (probing third_time_lucky)) 3 (init (0, 0)%nat)).2) =
    [ERun probe_cmd (Some 5) (exit_with 22); ESleep 5 (Val tt);
     ERun probe_cmd (Some 5) (exit_with 22); ESleep 5 (Val tt);
     ERun probe_cmd (Some 5) (exit_with 0)] /\
  length (filter is_probe
    (trace (health_check_with (ScriptOS (probing third_time_lucky)) 3 (init (0, 0)%nat)).2)) = 3%nat /\
  length (filter is_sleep
    (trace (health_check_with (ScriptOS (probing third_time_lucky)) 3 (init (0, 0)%nat)).2)) = 2%nat.
Proof.
  apply (proj2 (proj2 (health_check_probe_counts third_time_lucky 3)) 3%nat).
  - lia.
  - intros i Hi. assert (i = 0 \/ i = 1)%nat as [-> | ->] by lia; reflexivity.
  - reflexivity.
Defined.

(** C4 on a failing input: a host whose stdout encodes ASCII only, and an
    application that answers the first probe.  Every one of the twelve
    probes exits with 0, yet [health_check] returns False, after twelve
    probes and eleven sleeps: the success line starts with a check mark
    that this stdout cannot encode, the print stands inside the try block
    of the loop, and its except clause takes the error of the print for
    an error of the probe.  [main] then gives the healthy deployment up
    with exit code 1. *)
Lemma healthy_application_is_reported_unhealthy :
  let run := health_check (AsciiOS (probing (fun _ => exit_with 0))) (init (0, 0)%nat) in
  run.1 = Val false /\
  health_passed (trace run.2) = true /\
  filter is_probe (trace run.2) = replicate 12 (ERun probe_cmd (Some 5) (exit_with 0)) /\
  length (filter is_sleep (trace run.2)) = 11%nat /\
  (main (AsciiOS fresh_install) (init (0, 0)%nat)).1 = Val 1.
Proof. vm_compute. done. Qed.

(** * The artifact manager on the simulated host *)

Lemma with_process_files p w : files (with_process p w) = files w.
Proof. done. Qed.

Lemma start_app_files w : files (start_app w).2 = files w.
Proof. unfold start_app. by destruct (app_starts w). Qed.

Lemma sim_stop_files (st : St sim) :
  exists b, (stop_application SimOS st).1 = Val b /\
            files (world (stop_application SimOS st).2) = files (world st).
Proof.
  unfold stop_application, force_kill, bind, print_info, print_success,
    print_warning, emit, time_sleep. simpl.
  rewrite run_command_eq. simpl.
  destruct (process (world st)) as [[]|] eqn:Hp; simpl;
    repeat (first [rewrite check_app_running_eq | rewrite run_command_eq
                  | rewrite Hp]; simpl);
    by eexists.
Qed.

Lemma sim_start_files (st : St sim) :
  exists b, (start_application SimOS st).1 = Val b /\
            files (world (start_application SimOS st).2) = files (world st).
Proof.
  unfold start_application, bind, print_info, print_success, print_warning,
    print_error, emit, time_sleep, path_exists, ret. simpl.
  repeat (case_match; simpl in *; simplify_eq; rewrite ?run_command_eq; simpl);
    rewrite ?start_app_files; try (by eexists);
    match goal with
    | H : start_app ?w = (_, ?s) |- _ =>
        pose proof (start_app_files w) as Hs; rewrite H in Hs; by eexists
    end.
Qed.

Lemma backup_path_not_deploy timestamp :
  BACKUP_DIR +:+ "/" +:+ APP_NAME +:+ "_" +:+ timestamp <> DEPLOY_DIR.
Proof. cbv [String.append BACKUP_DIR APP_NAME DEPLOY_DIR]. congruence. Qed.

Lemma backup_path_not_root timestamp :
  BACKUP_DIR +:+ "/" +:+ APP_NAME +:+ "_" +:+ timestamp <> BACKUP_DIR.
Proof. cbv [String.append BACKUP_DIR APP_NAME]. congruence. Qed.

Lemma sim_exists_deploy (w : sim) :
  os_exists SimOS DEPLOY_DIR w = bool_decide (is_Some (files w !! DEPLOY_DIR)).
Proof. simpl. by rewrite orb_false_r. Qed.

(** What a successful backup leaves on the simulated host. *)
Lemma sim_backup_taken (st st1 : St sim) bp :
  backup_current_version SimOS st = (Val (Some bp), st1) ->
  files (world st) !! bp = None ->
  bp = BACKUP_DIR +:+ "/" +:+ APP_NAME +:+ "_" +:+ clock (world st) "%Y%m%d_%H%M%S" /\
  is_Some (files (world st) !! DEPLOY_DIR) /\
  files (world st1) !! bp = files (world st) !! DEPLOY_DIR /\
  files (world st1) !! DEPLOY_DIR = files (world st) !! DEPLOY_DIR.
Proof.
  unfold backup_current_version.
  unfold bind at 1, print_info at 1, emit at 1.
  unfold bind at 1, path_exists at 1. cbn [world trace main_backup_path].
  rewrite sim_exists_deploy.
  destruct (files (world st) !! DEPLOY_DIR) as [t|] eqn:Hd; simpl; [|done].
  unfold bind at 1, strftime at 1. cbn [world SimOS os_strftime].
  set (bp' := BACKUP_DIR +:+ "/" +:+ APP_NAME +:+ "_" +:+ clock (world st) "%Y%m%d_%H%M%S").
  unfold bind at 1. rewrite run_command_eq. cbn [world trace main_backup_path].
  pose proof (backup_path_not_deploy (clock (world st) "%Y%m%d_%H%M%S")) as Hne1.
  pose proof (backup_path_not_root (clock (world st) "%Y%m%d_%H%M%S")) as Hne2.
  fold bp' in Hne1, Hne2.
  assert (BACKUP_DIR <> DEPLOY_DIR) as Hne3 by (by vm_compute).
  intros Hrun Hfresh.
  assert (bp = bp') as ->.
  { revert Hrun. unfold bind, print_success, print_error, emit, ret. simpl.
    repeat case_match; simpl; intros; by simplify_eq. }
  split; [done|]. split; [done|].
  revert Hrun. unfold bind, print_success, print_error, emit, ret. simpl.
  destruct (files (world st) !! BACKUP_DIR) as [tb|] eqn:Hb; simpl.
  - rewrite Hd, Hfresh. simpl. intros [= <-]. simpl.
    by rewrite lookup_insert_eq, lookup_insert_ne.
  - rewrite lookup_insert_ne, Hd by done. rewrite lookup_insert_ne, Hfresh by done.
    simpl. intros [= <-]. simpl.
    rewrite lookup_insert_eq. rewrite !lookup_insert_ne by done. done.
Qed.

(** What [rollback] leaves on the simulated host. *)
Lemma sim_rollback_restores (st : St sim) bp t :
  bp <> "" -> bp <> DEPLOY_DIR ->
  files (world st) !! bp = Some t ->
  files (world (rollback SimOS (Some bp) st).2) !! DEPLOY_DIR = Some t.
Proof.
  intros Hne Hnd Hbp. destruct bp as [|a b]; [done|].
  unfold rollback. unfold bind at 1, print_warning at 1, emit at 1.
  unfold bind at 1, path_exists at 1. cbn [world trace main_backup_path].
  assert (os_exists SimOS (String a b) (world st) = true) as ->.
  { simpl. rewrite Hbp. done. }
  cbn [negb]. unfold bind at 1.
  match goal with
  | |- context [stop_application SimOS ?s] =>
      destruct (sim_stop_files s) as (stopped & Hv & Hf);
      destruct (stop_application SimOS s) as [r3 st3]
  end.
  simpl in Hv, Hf. subst r3.
  unfold bind at 1. rewrite run_command_eq. cbn [default from_option id world trace main_backup_path].
  assert (os_run SimOS (restore_cmd (String a b)) (Some 300) (world st3) =
          (exit_with 0,
           with_files (<[DEPLOY_DIR := t]> (delete DEPLOY_DIR (files (world st3))))
                      (world st3))) as ->.
  { simpl. rewrite lookup_delete_ne, Hf, Hbp by done. by rewrite lookup_delete_eq. }
  cbn [fst snd verdict_value exit_with returncode Z.eqb].
  unfold bind at 1.
  match goal with
  | |- context [start_application SimOS ?s] =>
      destruct (sim_start_files s) as (started & Hv & Hf');
      destruct (start_application SimOS s) as [r4 st4]
  end.
  simpl in Hv, Hf'. subst r4.
  assert (files (world st4) !! DEPLOY_DIR = Some t) as Hres.
  { rewrite Hf'. apply lookup_insert_eq. }
  by destruct started.
Qed.

(** On the simulated host, a backup taken into a backup path at which
    nothing existed and a later [rollback] to that path leave the
    deployment location with exactly the contents it had when the backup
    was taken, whatever happened to the host in between as long as the
    backup itself was not touched. *)
Theorem backup_rollback_round_trip (st st1 st2 : St sim) (bp : string) :
  backup_current_version SimOS st = (Val (Some bp), st1) ->
  files (world st) !! bp = None ->
  files (world st2) !! bp = files (world st1) !! bp ->
  is_Some (files (world st) !! DEPLOY_DIR) /\
  files (world (rollback SimOS (Some bp) st2).2) !! DEPLOY_DIR =
    files (world st) !! DEPLOY_DIR.
Proof.
  intros Hb Hfresh Hkept.
  destruct (sim_backup_taken st st1 bp Hb Hfresh) as (Hbp & [t Ht] & Hcopy & _).
  split; [by exists t|].
  rewrite Ht. apply sim_rollback_restores.
  - rewrite Hbp. cbv [String.append BACKUP_DIR]. congruence.
  - rewrite Hbp. apply backup_path_not_deploy.
  - by rewrite Hkept, Hcopy.
Qed.

Lemma backup_rollback_round_trip_witness :
  is_Some (files (world (init live_host)) !! DEPLOY_DIR) /\
  files (world (rollback SimOS (Some example_backup_path)
                  (MkSt (with_files
                           (<[DEPLOY_DIR := {["app" := "v2"]}]>
                              (files (world (backup_current_version SimOS (init live_host)).2)))
                           live_host) [] None)).2) !! DEPLOY_DIR =
    files (world (init live_host)) !! DEPLOY_DIR.
Proof.
  apply (backup_rollback_round_trip (init live_host)
           (backup_current_version SimOS (init live_host)).2);
    vm_compute; reflexivity.
Defined.

(** C3 on a failing input: a directory exists already at the path that
    [backup_current_version] computes, as it does when an earlier backup
    carries the same timestamp.  cp -r then copies the deployment into
    that directory instead of onto it, [backup_current_version] still
    returns the path, and the [rollback] to it, which reports success,
    leaves the deployment location with the old backup's files and the
    captured state one level down: version v0 where v1 was captured, and
    no start script. *)
Lemma backup_into_existing_path_breaks_round_trip :
  let st := init stale_backup_host in
  let st1 := (backup_current_version SimOS st).2 in
  let st2 := (rollback SimOS (Some example_backup_path) st1).2 in
  (backup_current_version SimOS st).1 = Val (Some example_backup_path) /\
  (rollback SimOS (Some example_backup_path) st1).1 = Val true /\
  files (world st) !! DEPLOY_DIR ≫= (.!! "app") = Some "v1" /\
  files (world st2) !! DEPLOY_DIR ≫= (.!! "app") = Some "v0" /\
  files (world st2) !! DEPLOY_DIR ≫= (.!! "start.sh") = None /\
  files (world st2) !! DEPLOY_DIR ≫= (.!! "web-application/app") = Some "v1" /\
  files (world st2) !! DEPLOY_DIR <> files (world st) !! DEPLOY_DIR.
Proof.
  intros st st1 st2. split_and!; try (vm_compute; reflexivity).
  intros Heq.
  assert (files (world st2) !! DEPLOY_DIR ≫= (.!! "app") =
          files (world st) !! DEPLOY_DIR ≫= (.!! "app")) as H by (by rewrite Heq).
  vm_compute in H. discriminate H.
Qed.

(** * The orchestrator *)

Section Orchestrator.
Context {W : Type} (os : OS W).

Lemma main_eq (w : W) :
  main os (init w) =
  try_except (main_try os (os_time os w)) (main_except os) (MkSt w (banner os w) None).
Proof. reflexivity. Qed.

(** The run of [main] when the application is not running. *)
Lemma main_try_not_running t st p w1 :
  os_run os status_cmd None (world st) = (Val p, w1) -> returncode p <> 0 ->
  main_try os t st =
  main_from_deploy os t
    (MkSt w1 (trace st ++ [ELog INFO "Checking if application is running...";
                           ERun status_cmd None (Val p);
                           ELog INFO (APP_NAME +:+ " is not running")])
          (main_backup_path st)).
Proof.
  intros Hr Hp. unfold main_try. unfold bind at 1. rewrite check_app_running_eq.
  simpl. rewrite Hr. simpl. apply Z.eqb_neq in Hp. rewrite Hp.
  unfold bind, ret. simpl. by rewrite <- app_assoc.
Qed.

Lemma health_loop_no_backup_no_stop :
  forall v N r a, emits v no_backup_no_stop (health_check_loop os N r a).
Proof. solve_loop_emits. Qed.

Lemma try_except_ext {A} (body body' : Prog W A) handler st st' :
  body st = body' st' -> try_except body handler st = try_except body' handler st'.
Proof. unfold try_except. by intros ->. Qed.

(** [main_from_deploy] first logs that it deploys; from there on, with
    no backup recorded, nothing belongs to a backup or a stop, either in
    the rest of the try block or in an except clause. *)
Lemma main_from_deploy_first t :
  exists K : Prog W Z,
    (forall st,
       main_from_deploy os t st =
       K (MkSt (world st)
               (trace st ++ [ELog INFO ("Deploying " +:+ APP_NAME +:+ " version "
                                        +:+ APP_VERSION +:+ "...")])
               (main_backup_path st))) /\
    emits None no_backup_no_stop (try_except K (main_except os)).
Proof.
  eexists. split.
  - intros st. unfold main_from_deploy, deploy_new_version.
    rewrite bind_assoc_at. unfold bind at 1, print_info at 1, emit at 1.
    reflexivity.
  - pose proof health_loop_no_backup_no_stop. solve_emits.
Qed.

End Orchestrator.

(** C8: when the first status query says that the application is not
    running, [main] goes from the status check straight to deploying, and
    nothing in the whole run belongs to a backup or to a stop: neither
    function is entered and none of their commands is spawned. *)
Theorem not_running_skips_backup_and_stop {W} (os : OS W) (w : W) p w1 :
  os_run os status_cmd None w = (Val p, w1) ->
  returncode p <> 0 ->
  (exists rest,
     trace (main os (init w)).2 =
       banner os w ++
       [ELog INFO "Checking if application is running...";
        ERun status_cmd None (Val p);
        ELog INFO "web-application is not running";
        ELog INFO "Deploying web-application version v2.5.0..."] ++ rest) /\
  forallb no_backup_no_stop (trace (main os (init w)).2) = true.
Proof.
  intros Hr Hp. rewrite main_eq.
  erewrite try_except_ext by (by apply main_try_not_running).
  destruct (main_from_deploy_first os (os_time os w)) as (K & HK & Hquiet).
  erewrite try_except_ext by apply HK.
  cbn [world trace main_backup_path].
  match goal with
  | |- context [try_except K _ ?s] =>
      destruct (Hquiet s eq_refl) as (evs & -> & _ & Hevs)
  end.
  cbn [trace]. split.
  - exists evs. by rewrite <- !app_assoc.
  - rewrite !forallb_app, Hevs. reflexivity.
Qed.

Lemma not_running_skips_backup_and_stop_witness :
  (exists rest,
     trace (main (ScriptOS (answers [exit_with 1] [SOURCE_DIR])) (init (0, 0)%nat)).2 =
       banner (ScriptOS (answers [exit_with 1] [SOURCE_DIR])) (0, 0)%nat ++
       [ELog INFO "Checking if application is running...";
        ERun status_cmd None (Val (Completed 1 ""));
        ELog INFO "web-application is not running";
        ELog INFO "Deploying web-application version v2.5.0..."] ++ rest) /\
  forallb no_backup_no_stop
    (trace (main (ScriptOS (answers [exit_with 1] [SOURCE_DIR])) (init (0, 0)%nat)).2) = true.
Proof.
  apply (not_running_skips_backup_and_stop
           (ScriptOS (answers [exit_with 1] [SOURCE_DIR])) (0, 0)%nat
           (Completed 1 "") (1, 0)%nat).
  - reflexivity.
  - simpl. lia.
Defined.

(** * Rollback comes after a backup *)

Lemma guarded_app taken tr evs :
  guarded taken (tr ++ evs) =
  guarded taken tr && guarded (taken || existsb backup_taken tr) evs.
Proof.
  revert taken. induction tr as [|e tr IH]; intros taken; simpl.
  - by rewrite orb_false_r.
  - rewrite IH. by rewrite <- !andb_assoc, <- !orb_assoc.
Qed.

Lemma guarded_taken evs : guarded true evs = true.
Proof. induction evs as [|e evs IH]; [done|]. simpl. done. Qed.

Lemma guarded_quiet taken evs :
  forallb no_rollback evs = true -> guarded taken evs = true.
Proof.
  revert taken. induction evs as [|e evs IH]; intros taken; [done|]. simpl.
  intros [He Hevs]%andb_true_iff. rewrite IH by done.
  unfold no_rollback in He. rewrite He. by rewrite orb_true_r.
Qed.

Lemma guarded_without_backup tr :
  guarded false tr = true -> existsb backup_taken tr = false ->
  forallb no_rollback tr = true.
Proof.
  induction tr as [|e tr IH]; [done|]. simpl.
  intros [He Htr]%andb_true_iff [Hb Hex]%orb_false_iff.
  rewrite Hb in Htr. unfold no_rollback at 1. rewrite He. simpl. by apply IH.
Qed.

Section Guard.
Context {W : Type} (os : OS W).

Lemma preserves_bind {A B} (m : Prog W A) (k : A -> Prog W B) :
  preserves m -> (forall a, preserves (k a)) -> preserves (bind m k).
Proof.
  intros Hm Hk st Hst. specialize (Hm st Hst). unfold bind.
  destruct (m st) as [[a|e] st1]; simpl in *; [by apply Hk|done].
Qed.

Lemma preserves_try {A} (body : Prog W A) handler :
  preserves body -> (forall e h, handler e = Some h -> preserves h) ->
  preserves (try_except body handler).
Proof.
  intros Hm Hh st Hst. specialize (Hm st Hst). unfold try_except.
  destruct (body st) as [[a|e] st1]; simpl in *; [done|].
  destruct (handler e) as [h|] eqn:He; [by eapply Hh|done].
Qed.

Lemma preserves_quiet {A} (m : Prog W A) :
  (forall v, emits v no_rollback m) -> preserves m.
Proof.
  intros Hm st [Hg Ht].
  destruct (Hm _ st eq_refl) as (evs & Htr & Hv & Hevs).
  split.
  - rewrite Htr, guarded_app, Hg. simpl. by apply guarded_quiet.
  - rewrite Hv, Htr, existsb_app. intros H. by rewrite Ht.
Qed.

(** Once a backup stands behind [backup_path], anything may follow. *)
Lemma preserves_after_backup {A} (m : Prog W A) st :
  (forall v, emits v any_event m) ->
  backed st -> truthy (main_backup_path st) = true -> backed (m st).2.
Proof.
  intros Hm [Hg Ht] Htruthy.
  destruct (Hm _ st eq_refl) as (evs & Htr & Hv & _).
  split.
  - rewrite Htr, guarded_app, Hg, Ht by done. simpl. apply guarded_taken.
  - rewrite Htr, existsb_app, Ht by done. done.
Qed.

Lemma health_loop_no_rollback :
  forall v N r a, emits v no_rollback (health_check_loop os N r a).
Proof. solve_loop_emits. Qed.

Lemma health_loop_any_event :
  forall v N r a, emits v any_event (health_check_loop os N r a).
Proof. solve_loop_emits. Qed.

Lemma rollback_if_backup_preserves : preserves (rollback_if_backup os).
Proof.
  intros st Hst. unfold rollback_if_backup, bind at 1, get_backup_path at 1.
  destruct (truthy (main_backup_path st)) eqn:Htruthy; [|done].
  apply preserves_after_backup; [|done..]. intros v. solve_emits.
Qed.

Lemma health_failure_preserves :
  preserves (backup_path <- get_backup_path ;;
             (if truthy backup_path then
                rollback os backup_path ;;
                send_notification os "failure" "Deployment failed health check, rolled back"
              else ret tt) ;;
             ret 1)%py.
Proof.
  intros st Hst. unfold bind at 1, get_backup_path at 1.
  destruct (truthy (main_backup_path st)) eqn:Htruthy.
  - apply preserves_after_backup; [|done..]. intros v. solve_emits.
  - done.
Qed.

Lemma main_from_health_check_preserves t : preserves (main_from_health_check os t).
Proof.
  pose proof health_loop_no_rollback.
  unfold main_from_health_check. apply preserves_bind.
  { apply preserves_quiet. intros v. solve_emits. }
  intros [|]; cbn [negb].
  - apply preserves_quiet. intros v. solve_emits.
  - apply preserves_bind; [apply preserves_quiet; intros v; solve_emits|].
    intros _. apply health_failure_preserves.
Qed.

Lemma main_from_deploy_preserves t : preserves (main_from_deploy os t).
Proof.
  unfold main_from_deploy. apply preserves_bind.
  { apply preserves_quiet. intros v. solve_emits. }
  intros [|]; cbn [negb]; [|apply preserves_quiet; intros v; solve_emits].
  apply preserves_bind.
  { apply preserves_quiet. intros v. solve_emits. }
  intros [|]; cbn [negb]; [apply main_from_health_check_preserves|].
  apply preserves_bind; [apply preserves_quiet; intros v; solve_emits|].
  intros _. apply preserves_bind; [apply rollback_if_backup_preserves|].
  intros _. apply preserves_quiet. intros v. solve_emits.
Qed.

Lemma main_from_stop_preserves t : preserves (main_from_stop os t).
Proof.
  unfold main_from_stop. apply preserves_bind.
  { apply preserves_quiet. intros v. solve_emits. }
  intros [|]; cbn [negb]; [apply main_from_deploy_preserves|].
  apply preserves_quiet. intros v. solve_emits.
Qed.

Lemma backup_current_version_eq st :
  backup_current_version os st =
  let present := os_exists os DEPLOY_DIR (world st) in
  let tr0 := trace st ++ [ELog INFO "Creating backup of current version...";
                          EExists DEPLOY_DIR present] in
  if present then
    let bp := BACKUP_DIR +:+ "/" +:+ APP_NAME +:+ "_" +:+
              os_strftime os "%Y%m%d_%H%M%S" (world st) in
    let r := os_run os (backup_cmd bp) (Some 300) (world st) in
    let tr1 := tr0 ++ ELog INFO ("Backing up to " +:+ bp)
                   :: ERun (backup_cmd bp) (Some 300) r.1 :: verdict r.1 in
    match verdict_value r.1 with
    | Val true =>
        (Val (Some bp),
         MkSt r.2 (tr1 ++ [ELog SUCCESS ("Backup created: " +:+ bp)]) (main_backup_path st))
    | Val false =>
        (Val None, MkSt r.2 (tr1 ++ [ELog ERROR "Backup failed!"]) (main_backup_path st))
    | Exc e => (Exc e, MkSt r.2 tr1 (main_backup_path st))
    end
  else
    (Val None,
     MkSt (world st) (tr0 ++ [ELog WARNING "No existing deployment to backup"])
          (main_backup_path st)).
Proof.
  unfold backup_current_version.
  unfold bind at 1, print_info at 1, emit at 1.
  unfold bind at 1, path_exists at 1. cbn [world trace main_backup_path].
  destruct (os_exists os DEPLOY_DIR (world st)); cbn [negb].
  - unfold bind at 1, strftime at 1. cbn [world].
    unfold bind at 1. rewrite run_command_eq. cbn [world trace main_backup_path].
    destruct (verdict_value _) as [[|]|e];
      unfold bind, print_success, print_error, emit, ret; simpl;
      rewrite <- ?app_assoc; reflexivity.
  - unfold bind, print_warning, emit, ret. simpl. rewrite <- ?app_assoc. reflexivity.
Qed.

(** [backup_current_version] returns a path only after its copy command
    exited with 0. *)
Lemma backup_taken_when_truthy st bp :
  (backup_current_version os st).1 = Val bp -> truthy bp = true ->
  exists evs, trace (backup_current_version os st).2 = trace st ++ evs /\
              existsb backup_taken evs = true.
Proof.
  rewrite backup_current_version_eq. cbv zeta.
  destruct (os_exists os DEPLOY_DIR (world st)); [|by intros [= <-]].
  destruct (os_run os _ (Some 300) (world st)) as [[p|[]] w1]; simpl;
    try (by intros [= <-]).
  destruct (returncode p =? 0) eqn:Hrc; simpl; [|by intros [= <-]].
  intros _ _. eexists. split; [by rewrite <- !app_assoc|].
  simpl. by rewrite Hrc.
Qed.

Lemma backup_then_record_preserves {A} (k : option string -> Prog W A) :
  (forall bp, preserves (k bp)) ->
  preserves (backup_path <- backup_current_version os ;;
             set_backup_path backup_path ;; k backup_path)%py.
Proof.
  intros Hk st [Hg Ht]. unfold bind at 1.
  assert (forall v, emits v no_rollback (backup_current_version os)) as Hquiet
    by (intros v; solve_emits).
  destruct (Hquiet _ st eq_refl) as (evs & Htr & Hv & Hevs).
  pose proof (backup_taken_when_truthy st) as Htaken.
  destruct (backup_current_version os st) as [[bp|e] st1]; simpl in *.
  - unfold bind at 1, set_backup_path at 1. apply Hk. split; simpl.
    + rewrite Htr, guarded_app, Hg. simpl. by apply guarded_quiet.
    + intros Hbp. destruct (Htaken bp eq_refl Hbp) as (evs' & Htr' & Hex).
      rewrite Htr in Htr'. apply app_inv_head in Htr'. subst evs'.
      rewrite Htr, existsb_app, Hex. by rewrite orb_true_r.
  - split.
    + rewrite Htr, guarded_app, Hg. simpl. by apply guarded_quiet.
    + rewrite Hv, Htr, existsb_app. intros H. by rewrite Ht.
Qed.

Lemma main_try_preserves t : preserves (main_try os t).
Proof.
  unfold main_try. apply preserves_bind.
  { apply preserves_quiet. intros v. solve_emits. }
  intros [|].
  - apply preserves_bind; [|intros _; apply main_from_stop_preserves].
    apply backup_then_record_preserves. intros bp.
    apply preserves_quiet. intros v. solve_emits.
  - apply preserves_bind; [|intros _; apply main_from_deploy_preserves].
    apply preserves_quiet. intros v. solve_emits.
Qed.

Lemma main_except_preserves e h : main_except os e = Some h -> preserves h.
Proof.
  destruct e; intros [= <-].
  - apply preserves_bind; [apply preserves_quiet; intros v; solve_emits|].
    intros _. apply preserves_bind; [apply preserves_quiet; intros v; solve_emits|].
    intros _. apply preserves_bind; [apply rollback_if_backup_preserves|].
    intros _. apply preserves_quiet. intros v. solve_emits.
  - apply preserves_bind; [apply preserves_quiet; intros v; solve_emits|].
    intros _. apply preserves_bind; [apply rollback_if_backup_preserves|].
    intros _. apply preserves_quiet. intros v. solve_emits.
  - apply preserves_bind; [apply preserves_quiet; intros v; solve_emits|].
    intros _. apply preserves_bind; [apply rollback_if_backup_preserves|].
    intros _. apply preserves_quiet. intros v. solve_emits.
  - apply preserves_bind; [apply preserves_quiet; intros v; solve_emits|].
    intros _. apply preserves_bind; [apply rollback_if_backup_preserves|].
    intros _. apply preserves_quiet. intros v. solve_emits.
Qed.

End Guard.

(** C2: in every run of [main], on every operating system and on every
    path (failures, interruptions and errors included), each entry into
    [rollback] and each command that deletes anything comes after a backup
    command that copied the deployment directory and exited with 0.  In
    particular a run in which no backup was taken (the backup returned
    None or was never asked for) never enters [rollback] and never deletes
    the deployment location. *)
Theorem rollback_only_after_backup {W} (os : OS W) (w : W) :
  guarded false (trace (main os (init w)).2) = true /\
  (existsb backup_taken (trace (main os (init w)).2) = false ->
   forallb no_rollback (trace (main os (init w)).2) = true).
Proof.
  assert (guarded false (trace (main os (init w)).2) = true) as Hg.
  { rewrite main_eq.
    apply (preserves_try (main_try os (os_time os w)) (main_except os)).
    - apply main_try_preserves.
    - apply main_except_preserves.
    - split; [reflexivity|]. simpl. done. }
  split; [done|]. by apply guarded_without_backup.
Qed.

Lemma rollback_only_after_backup_example :
  let os := ScriptOS (answers [exit_with 0; exit_with 1] [DEPLOY_DIR]) in
  (main os (init (0, 0)%nat)).1 = Val 1 /\
  existsb backup_taken (trace (main os (init (0, 0)%nat)).2) = false /\
  forallb no_rollback (trace (main os (init (0, 0)%nat)).2) = true.
Proof. vm_compute. done. Qed.

(** * The exit code *)



Section Decide.
Context {W : Type} (os : OS W).

Lemma quietly_emits {A} P (m : Prog W A) :
  (forall v, emits v P m) -> quietly P m.
Proof.
  intros Hm st. destruct (Hm _ st eq_refl) as (evs & Htr & _ & Hevs).
  by exists evs.
Qed.

Lemma quietly_bind {A B} P (m : Prog W A) (k : A -> Prog W B) :
  quietly P m -> (forall a, quietly P (k a)) -> quietly P (bind m k).
Proof.
  intros Hm Hk st. unfold bind.
  destruct (Hm st) as (evs1 & Ht1 & HP1).
  destruct (m st) as [[a|e] st1]; simpl in *.
  - destruct (Hk a st1) as (evs2 & Ht2 & HP2).
    exists (evs1 ++ evs2). by rewrite Ht2, Ht1, app_assoc, forallb_app, HP1, HP2.
  - by exists evs1.
Qed.

Lemma quietly_set P v : quietly P (@set_backup_path W v).
Proof. intros st. exists []. by rewrite app_nil_r. Qed.

Lemma quietly_get P : quietly P (@get_backup_path W).
Proof. intros st. exists []. by rewrite app_nil_r. Qed.

Lemma bind_unfold {A B} (m : Prog W A) (k : A -> Prog W B) st :
  bind m k st =
  match m st with
  | (Val a, st1) => k a st1
  | (Exc e, st1) => (Exc e, st1)
  end.
Proof. reflexivity. Qed.

Lemma bind_emit {B} e (k : unit -> Prog W B) st :
  bind (emit e) k st = k tt (MkSt (world st) (trace st ++ [e]) (main_backup_path st)).
Proof. reflexivity. Qed.

End Decide.

(** ** Where exceptions come from

    Outside the health check, a part of the script raises only when
    subprocess.run or time.sleep did. *)

Section Raises.
Context {W : Type} (os : OS W).












End Raises.




Section Exit.
Context {W : Type} (os : OS W).












(** Whatever a bind returns, its last part returned it. *)
Lemma returns_bind {A B} (m : Prog W A) (k : A -> Prog W B) (b : B) st :
  (forall a st1 b', (k a st1).1 = Val b' -> b' = b) ->
  forall b', (bind m k st).1 = Val b' -> b' = b.
Proof.
  intros Hk b'. rewrite bind_unfold. destruct (m st) as [[a|e] st1]; [apply Hk|done].
Qed.

(** An except clause of [main] returns 1 when it returns. *)
Lemma main_except_returns_one e h st code :
  main_except os e = Some h -> (h st).1 = Val code -> code = 1.
Proof.
  intros Hh. revert code.
  destruct e; simplify_eq/=;
    repeat (apply returns_bind; intros ? ?); by intros ? [= <-].
Qed.

Lemma main_except_handles e : exists h, main_except os e = Some h.
Proof. destruct e; by eexists. Qed.


End Exit.




(** * Notifications *)

(** C5 on a failing input: the health check fails with a backup at hand,
    the restore command of the rollback fails, [rollback] logs that it
    failed, and the one notification of the run still says "rolled back".
    The exit code is 1. *)
Lemma failed_rollback_is_notified_as_rolled_back :
  let run := main (ScriptOS unhealthy_and_restore_fails) (init (0, 0)%nat) in
  run.1 = Val 1 /\
  filter rollback_verdict (trace run.2) = [ELog ERROR "Rollback failed!"] /\
  filter is_notify (trace run.2) =
    [ENotify (Notification "FAILURE" APP_NAME APP_VERSION "20240115_103000"
                "Deployment failed health check, rolled back")].
Proof. vm_compute. done. Qed.

(** C6 on two failing inputs: a run whose deployment fails and a run whose
    start fails and is rolled back both end with exit code 1 and without
    any notification. *)
Lemma failed_runs_send_no_notification :
  let missing := main (ScriptOS source_missing) (init (0, 0)%nat) in
  let rolled_back := main (ScriptOS start_fails) (init (0, 0)%nat) in
  missing.1 = Val 1 /\
  filter is_notify (trace missing.2) = [] /\
  rolled_back.1 = Val 1 /\
  filter rollback_verdict (trace rolled_back.2) =
    [ELog SUCCESS "Rollback completed successfully"] /\
  filter is_notify (trace rolled_back.2) = [].
Proof. vm_compute. done. Qed.

(** * Stopping a process that ignores SIGTERM *)

(** On the simulated host, a process that ignores SIGTERM is gone after
    [stop_application], which returns True. *)
Theorem stop_kills_a_process_that_ignores_sigterm (st : St sim) :
  process (world st) = Some false ->
  (stop_application SimOS st).1 = Val true /\
  process (world (stop_application SimOS st).2) = None /\
  (check_app_running SimOS (stop_application SimOS st).2).1 = Val false.
Proof.
  intros Hp.
  unfold stop_application, force_kill, bind, print_info, print_success,
    print_warning, emit, time_sleep. simpl.
  rewrite !run_command_eq. simpl. rewrite !Hp. simpl.
  rewrite !check_app_running_eq. simpl. rewrite !Hp. simpl.
  rewrite !run_command_eq. simpl. rewrite !Hp. simpl.
  rewrite ?check_app_running_eq. simpl. done.
Qed.

Lemma stop_kills_a_process_that_ignores_sigterm_witness :
  (stop_application SimOS (init (with_process (Some false) idle_host))).1 = Val true /\
  process (world (stop_application SimOS (init (with_process (Some false) idle_host))).2)
    = None /\
  (check_app_running SimOS
     (stop_application SimOS (init (with_process (Some false) idle_host))).2).1 = Val false.
Proof.
  apply (stop_kills_a_process_that_ignores_sigterm
           (init (with_process (Some false) idle_host))).
  reflexivity.
Defined.

(** * At most one notification *)

Lemma notifications_app evs1 evs2 :
  notifications (evs1 ++ evs2) = (notifications evs1 + notifications evs2)%nat.
Proof. unfold notifications. by rewrite filter_app, length_app. Qed.

Lemma notifications_quiet evs :
  forallb no_notify evs = true -> notifications evs = 0%nat.
Proof.
  unfold notifications. induction evs as [|e evs IH]; [done|]. simpl.
  intros [He Hevs]%andb_true_iff. rewrite filter_cons.
  unfold no_notify in He. apply negb_true_iff in He.
  destruct (decide (is_notify e)) as [Hn|Hn]; [by rewrite He in Hn|by apply IH].
Qed.

Lemma notify_ok_prefix r pre evs :
  notifications pre = 0%nat -> notify_ok r evs -> notify_ok r (pre ++ evs).
Proof.
  intros Hpre. destruct r as [code|e]; simpl; rewrite notifications_app, Hpre; [|done].
  by destruct (code =? 0).
Qed.

Lemma notify_ok_raised e evs : notifications evs = 0%nat -> notify_ok (Exc e) evs.
Proof. intros H. cbn. lia. Qed.

Section Reports.
Context {W : Type} (os : OS W).

Lemma reports_bind_quiet {A} (m : Prog W A) (k : A -> Prog W Z) :
  quietly no_notify m -> (forall a, reports (k a)) -> reports (bind m k).
Proof.
  intros Hm Hk st. unfold bind.
  destruct (Hm st) as (evs1 & Ht1 & HP1).
  apply notifications_quiet in HP1.
  destruct (m st) as [[a|e] st1]; simpl in *.
  - destruct (Hk a st1) as (evs2 & Ht2 & Hok).
    exists (evs1 ++ evs2). rewrite Ht2, Ht1, app_assoc. split; [done|].
    by apply notify_ok_prefix.
  - exists evs1. split; [done|]. by apply notify_ok_raised.
Qed.

Lemma reports_failure : reports (@ret W Z 1).
Proof.
  intros st. exists []. rewrite app_nil_r. split; [done|].
  unfold notify_ok, notifications. simpl. lia.
Qed.

Lemma health_loop_no_notify :
  forall v N r a, emits v no_notify (health_check_loop os N r a).
Proof. solve_loop_emits. Qed.

Lemma health_failure_reports :
  reports (print_error "Health check failed" ;;
           backup_path <- get_backup_path ;;
           (if truthy backup_path then
              rollback os backup_path ;;
              send_notification os "failure" "Deployment failed health check, rolled back"
            else ret tt) ;;
           ret 1)%py.
Proof.
  apply reports_bind_quiet; [apply quietly_emits; intros v; solve_emits|].
  intros _. apply reports_bind_quiet; [apply quietly_get|].
  intros bp. destruct (truthy bp).
  - intros st. rewrite bind_assoc_at, bind_unfold.
    assert (quietly no_notify (rollback os bp)) as Hq
      by (apply quietly_emits; intros v; solve_emits).
    destruct (Hq st) as (evs & Htr & Hevs). apply notifications_quiet in Hevs.
    destruct (rollback os bp st) as [[b|e] st1]; cbn [fst snd] in *.
    + exists (evs ++ [ELog INFO "Sending failure notification...";
                      ENotify (Notification "FAILURE" APP_NAME APP_VERSION
                                 (os_strftime os "%Y-%m-%d %H:%M:%S" (world st1))
                                 "Deployment failed health check, rolled back")]).
      unfold send_notification, print_info, strftime, emit, ret, bind.
      cbn [fst snd trace world main_backup_path]. split.
      * rewrite Htr, <- !app_assoc. reflexivity.
      * cbn [notify_ok Z.eqb]. rewrite notifications_app, Hevs. done.
    + exists evs. split; [done|]. by apply notify_ok_raised.
  - apply reports_bind_quiet; [apply quietly_emits; intros v; solve_emits|].
    intros _. apply reports_failure.
Qed.

Lemma main_from_health_check_reports t : reports (main_from_health_check os t).
Proof.
  pose proof health_loop_no_notify as Hloop.
  intros st. unfold main_from_health_check. rewrite bind_unfold.
  assert (quietly no_notify (health_check os)) as Hq
    by (apply quietly_emits; intros v; solve_emits).
  destruct (Hq st) as (evs & Htr & Hevs). apply notifications_quiet in Hevs.
  destruct (health_check os st) as [[[|]|e] st1]; cbn [fst snd negb] in *.
  - exists (evs ++ success_report os t (world st1)).
    unfold send_notification, time_time, print, print_success, print_info,
      strftime, emit, ret, bind. cbn [fst snd trace world main_backup_path].
    split.
    + rewrite Htr, <- !app_assoc. reflexivity.
    + cbn [notify_ok Z.eqb]. rewrite notifications_app, Hevs. done.
  - destruct (health_failure_reports st1) as (evs2 & Htr2 & Hok).
    exists (evs ++ evs2). split.
    + by rewrite Htr2, Htr, <- app_assoc.
    + by apply notify_ok_prefix.
  - exists evs. split; [done|]. by apply notify_ok_raised.
Qed.

Lemma main_try_reports t : reports (main_try os t).
Proof.
  assert (reports (main_from_deploy os t)) as Hdeploy.
  { unfold main_from_deploy.
    apply reports_bind_quiet; [apply quietly_emits; intros v; solve_emits|].
    intros [|]; cbn [negb].
    - apply reports_bind_quiet; [apply quietly_emits; intros v; solve_emits|].
      intros [|]; cbn [negb]; [apply main_from_health_check_reports|].
      apply reports_bind_quiet; [apply quietly_emits; intros v; solve_emits|].
      intros _.
      apply reports_bind_quiet; [apply quietly_emits; intros v; solve_emits|].
      intros _. apply reports_failure.
    - apply reports_bind_quiet; [apply quietly_emits; intros v; solve_emits|].
      intros _. apply reports_failure. }
  assert (reports (main_from_stop os t)) as Hstop.
  { unfold main_from_stop.
    apply reports_bind_quiet; [apply quietly_emits; intros v; solve_emits|].
    intros [|]; cbn [negb]; [done|].
    apply reports_bind_quiet; [apply quietly_emits; intros v; solve_emits|].
    intros _. apply reports_failure. }
  unfold main_try.
  apply reports_bind_quiet; [apply quietly_emits; intros v; solve_emits|].
  intros [|].
  - apply reports_bind_quiet; [|done].
    apply quietly_bind; [apply quietly_emits; intros v; solve_emits|].
    intros bp. apply quietly_bind; [apply quietly_set|].
    intros _. apply quietly_emits. intros v. solve_emits.
  - apply reports_bind_quiet; [|done].
    apply quietly_emits. intros v. solve_emits.
Qed.

End Reports.

(** In every run of [main], on every operating system and however the
    run ends, at most one notification is sent; when [main] returns 0,
    exactly one has been sent. *)
Theorem main_notifies_at_most_once {W} (os : OS W) (w : W) :
  (notifications (trace (main os (init w)).2) <= 1)%nat /\
  ((main os (init w)).1 = Val 0 ->
   notifications (trace (main os (init w)).2) = 1%nat).
Proof.
  assert (notify_ok (main os (init w)).1 (trace (main os (init w)).2)) as Hok.
  { rewrite main_eq. unfold try_except.
    destruct (main_try_reports os (os_time os w) (MkSt w (banner os w) None))
      as (evs & Htr & Hok).
    destruct (main_try os (os_time os w) (MkSt w (banner os w) None))
      as [[code|e] st1]; cbn [fst snd trace] in *.
    - rewrite Htr. by apply notify_ok_prefix.
    - destruct (main_except_handles os e) as [h Hh]. rewrite Hh.
      assert (quietly no_notify h) as Hq.
      { apply quietly_emits. intros v. destruct e; simplify_eq/=; solve_emits. }
      destruct (Hq st1) as (evs2 & Htr2 & Hevs2). apply notifications_quiet in Hevs2.
      pose proof (main_except_returns_one os e h st1) as Hone.
      assert (notifications (trace (h st1).2) <= 1)%nat as Hnone.
      { rewrite Htr2, Htr, !notifications_app, Hevs2. cbn [notify_ok] in Hok.
        change (notifications (banner os w)) with 0%nat. lia. }
      destruct (h st1) as [[code|e'] st2]; cbn [fst snd notify_ok] in *; [|done].
      rewrite (Hone code Hh eq_refl). cbn [Z.eqb]. done. }
  destruct (main os (init w)) as [[code|e] st]; cbn [fst snd notify_ok] in *.
  - split; [destruct (code =? 0); lia|]. by intros [= ->].
  - done.
Qed.

(** * Deploying *)

Lemma calls_describe d : calls (describe d) = [].
Proof. by destruct d. Qed.

Lemma calls_verdict r : calls (verdict r) = [].
Proof.
  destruct r as [p|[]]; simpl; try done.
  destruct (returncode p =? 0); [done|]. by destruct (stderr p).
Qed.

(** The calls of one [run_command]: exactly one subprocess, with the
    timeout of 300 seconds. *)
Lemma run_command_calls {W} (os : OS W) c d st :
  calls (trace (run_command os c d st).2) =
  calls (trace st) ++ [ERun c (Some 300) (os_run os c (Some 300) (world st)).1].
Proof.
  rewrite run_command_eq. cbn [snd trace].
  rewrite !calls_app, calls_describe. cbn [app].
  change (ERun c (Some 300) (os_run os c (Some 300) (world st)).1
          :: verdict (os_run os c (Some 300) (world st)).1)
    with ([ERun c (Some 300) (os_run os c (Some 300) (world st)).1]
          ++ verdict (os_run os c (Some 300) (world st)).1).
  by rewrite calls_app, calls_verdict, app_nil_r.
Qed.

(** Without the build directory, [deploy_new_version] returns False
    before it runs anything: no command is spawned and the host is left
    as it was. *)
Theorem deploy_without_source_runs_nothing {W} (os : OS W) st :
  os_exists os SOURCE_DIR (world st) = false ->
  (deploy_new_version os st).1 = Val false /\
  world (deploy_new_version os st).2 = world st /\
  calls (trace (deploy_new_version os st).2) = calls (trace st).
Proof.
  intros Hex. unfold deploy_new_version, print_info, print_error.
  rewrite bind_emit, bind_unfold. unfold path_exists at 1 2 3.
  cbn [world trace main_backup_path]. rewrite Hex. cbn [negb].
  rewrite bind_emit. cbn. rewrite !calls_app. cbn. by rewrite !app_nil_r.
Qed.

Lemma deploy_without_source_runs_nothing_witness :
  (deploy_new_version (ScriptOS source_missing) (init (0, 0)%nat)).1 = Val false /\
  world (deploy_new_version (ScriptOS source_missing) (init (0, 0)%nat)).2 =
    world (init (0, 0)%nat) /\
  calls (trace (deploy_new_version (ScriptOS source_missing) (init (0, 0)%nat)).2) =
    calls (trace (init (0, 0)%nat)).
Proof.
  apply (deploy_without_source_runs_nothing (ScriptOS source_missing) (init (0, 0)%nat)).
  reflexivity.
Defined.

(** The call of one [run_command] and its result. *)
Lemma run_command_cases {W} (os : OS W) c d st :
  exists r,
    calls (trace (run_command os c d st).2) = calls (trace st) ++ [ERun c (Some 300) r] /\
    match (run_command os c d st).1 with
    | Val b => run_ok (ERun c (Some 300) r) = b
    | Exc e => r = Exc KeyboardInterrupt
    end.
Proof.
  exists (os_run os c (Some 300) (world st)).1. split; [apply run_command_calls|].
  rewrite run_command_eq. cbn [fst].
  by destruct (os_run os c (Some 300) (world st)) as [[p|[]] w].
Qed.

Lemma calls_snoc_quiet tr e : is_call e = false -> calls (tr ++ [e]) = calls tr.
Proof.
  intros He. rewrite calls_app. unfold calls at 2. rewrite filter_cons.
  destruct (decide (is_call e)) as [H|H]; [by rewrite He in H|].
  by rewrite app_nil_r.
Qed.

Ltac refute_deployed :=
  split; [done|];
  let Hc := fresh "Hc" in let Hf := fresh "Hf" in
  intros [Hc Hf];
  first
    [ by cbn in Hc
    | cbn [forallb] in Hf;
      repeat match goal with
             | H : run_ok _ = _ |- _ => rewrite H in Hf
             end;
      cbn in Hf; by rewrite ?andb_false_r in Hf ].

(** With the build directory present, [deploy_new_version] runs mkdir,
    cp and chmod in this order and stops at the first command that does
    not exit with 0, and nowhere else: what it called are commands only,
    a prefix of the plan; every one before the last succeeded; either all
    three ran or the last one that ran did not exit with 0; and it
    returns True exactly when all three ran and succeeded. *)
Theorem deploy_stops_at_first_failure {W} (os : OS W) st :
  os_exists os SOURCE_DIR (world st) = true ->
  exists evs,
    calls (trace (deploy_new_version os st).2) = calls (trace st) ++ evs /\
    commands evs `prefix_of` deploy_plan /\
    forallb run_ok (removelast evs) = true /\
    ((deploy_new_version os st).1 = Val true <->
     commands evs = deploy_plan /\ forallb run_ok evs = true) /\
    length (commands evs) = length evs /\
    (commands evs = deploy_plan \/
     exists e, last evs = Some e /\ run_ok e = false).
Proof.
  intros Hex. unfold deploy_new_version, print_info, print_success.
  rewrite bind_emit, bind_unfold. unfold path_exists.
  cbn [world trace main_backup_path]. rewrite Hex. cbn [negb].
  rewrite bind_unfold.
  match goal with
  | |- context [run_command os (MkdirP DEPLOY_DIR) ?d ?s] =>
      destruct (run_command_cases os (MkdirP DEPLOY_DIR) d s) as (r1 & Hc1 & Hr1);
      destruct (run_command os (MkdirP DEPLOY_DIR) d s) as [[[|]|e1] s1]
  end; cbn [fst snd negb trace] in *;
    rewrite !calls_snoc_quiet in Hc1 by done.
  - rewrite bind_unfold.
    match goal with
    | |- context [run_command os (CpRAll SOURCE_DIR DEPLOY_DIR) ?d ?s] =>
        destruct (run_command_cases os (CpRAll SOURCE_DIR DEPLOY_DIR) d s)
          as (r2 & Hc2 & Hr2);
        destruct (run_command os (CpRAll SOURCE_DIR DEPLOY_DIR) d s) as [[[|]|e2] s2]
    end; cbn [fst snd negb] in *.
    + rewrite bind_unfold.
      match goal with
      | |- context [run_command os (ChmodX DEPLOY_DIR) ?d ?s] =>
          destruct (run_command_cases os (ChmodX DEPLOY_DIR) d s) as (r3 & Hc3 & Hr3);
          destruct (run_command os (ChmodX DEPLOY_DIR) d s) as [[[|]|e3] s3]
      end; cbn [fst snd negb] in *.
      * exists [ERun (MkdirP DEPLOY_DIR) (Some 300) r1;
                ERun (CpRAll SOURCE_DIR DEPLOY_DIR) (Some 300) r2;
                ERun (ChmodX DEPLOY_DIR) (Some 300) r3].
        rewrite bind_emit. unfold ret. cbn [fst snd trace]. split_and!.
        -- by rewrite calls_snoc_quiet, Hc3, Hc2, Hc1, <- !app_assoc.
        -- done.
        -- cbn [removelast forallb]. by rewrite Hr1, Hr2.
        -- cbn [forallb]. by rewrite Hr1, Hr2, Hr3.
        -- done.
        -- first [ by left
                 | right; eexists; (split; [reflexivity|]); first [assumption | by subst] ].
      * exists [ERun (MkdirP DEPLOY_DIR) (Some 300) r1;
                ERun (CpRAll SOURCE_DIR DEPLOY_DIR) (Some 300) r2;
                ERun (ChmodX DEPLOY_DIR) (Some 300) r3].
        unfold ret. cbn [fst snd trace]. split_and!.
        -- by rewrite Hc3, Hc2, Hc1, <- !app_assoc.
        -- done.
        -- cbn [removelast forallb]. by rewrite Hr1, Hr2.
        -- refute_deployed.
        -- done.
        -- first [ by left
                 | right; eexists; (split; [reflexivity|]); first [assumption | by subst] ].
      * exists [ERun (MkdirP DEPLOY_DIR) (Some 300) r1;
                ERun (CpRAll SOURCE_DIR DEPLOY_DIR) (Some 300) r2;
                ERun (ChmodX DEPLOY_DIR) (Some 300) r3].
        unfold ret. cbn [fst snd trace]. split_and!.
        -- by rewrite Hc3, Hc2, Hc1, <- !app_assoc.
        -- done.
        -- cbn [removelast forallb]. by rewrite Hr1, Hr2.
        -- subst r3. refute_deployed.
        -- done.
        -- first [ by left
                 | right; eexists; (split; [reflexivity|]); first [assumption | by subst] ].
    + exists [ERun (MkdirP DEPLOY_DIR) (Some 300) r1;
              ERun (CpRAll SOURCE_DIR DEPLOY_DIR) (Some 300) r2].
      unfold ret. cbn [fst snd trace]. split_and!.
      * by rewrite Hc2, Hc1, <- !app_assoc.
      * by exists [ChmodX DEPLOY_DIR].
      * cbn [removelast forallb]. by rewrite Hr1.
      * refute_deployed.
      * done.
      * first [ by left
              | right; eexists; (split; [reflexivity|]); first [assumption | by subst] ].
    + exists [ERun (MkdirP DEPLOY_DIR) (Some 300) r1;
              ERun (CpRAll SOURCE_DIR DEPLOY_DIR) (Some 300) r2].
      unfold ret. cbn [fst snd trace]. split_and!.
      * by rewrite Hc2, Hc1, <- !app_assoc.
      * by exists [ChmodX DEPLOY_DIR].
      * cbn [removelast forallb]. by rewrite Hr1.
      * refute_deployed.
      * done.
      * first [ by left
              | right; eexists; (split; [reflexivity|]); first [assumption | by subst] ].
  - exists [ERun (MkdirP DEPLOY_DIR) (Some 300) r1]. unfold ret. cbn [fst snd trace]. split_and!.
    + done.
    + by exists [CpRAll SOURCE_DIR DEPLOY_DIR; ChmodX DEPLOY_DIR].
    + done.
    + refute_deployed.
    + done.
    + first [ by left
            | right; eexists; (split; [reflexivity|]); first [assumption | by subst] ].
  - exists [ERun (MkdirP DEPLOY_DIR) (Some 300) r1]. unfold ret. cbn [fst snd trace]. split_and!.
    + done.
    + by exists [CpRAll SOURCE_DIR DEPLOY_DIR; ChmodX DEPLOY_DIR].
    + done.
    + refute_deployed.
    + done.
    + first [ by left
            | right; eexists; (split; [reflexivity|]); first [assumption | by subst] ].
Qed.

Lemma deploy_stops_at_first_failure_witness :
  exists evs,
    calls (trace (deploy_new_version
                    (ScriptOS (answers [exit_with 0; exit_with 1] [SOURCE_DIR]))
                    (init (0, 0)%nat)).2) =
      calls (trace (init (0, 0)%nat)) ++ evs /\
    commands evs `prefix_of` deploy_plan /\
    forallb run_ok (removelast evs) = true /\
    ((deploy_new_version (ScriptOS (answers [exit_with 0; exit_with 1] [SOURCE_DIR]))
        (init (0, 0)%nat)).1 = Val true <->
     commands evs = deploy_plan /\ forallb run_ok evs = true) /\
    length (commands evs) = length evs /\
    (commands evs = deploy_plan \/
     exists e, last evs = Some e /\ run_ok e = false).
Proof.
  apply (deploy_stops_at_first_failure
           (ScriptOS (answers [exit_with 0; exit_with 1] [SOURCE_DIR])) (init (0, 0)%nat)).
  reflexivity.
Defined.

(** * Starting *)

Lemma start_application_eq {W} (os : OS W) st :
  start_application os st =
  let present := os_exists os start_script (world st) in
  let cmd := if present then Script start_script else alternative_start_cmd in
  let st0 :=
    MkSt (world st)
      (trace st ++
       ELog INFO ("Starting " +:+ APP_NAME +:+ "...") :: EExists start_script present ::
       (if present then []
        else [ELog WARNING ("Start script not found: " +:+ start_script);
              ELog INFO "Attempting alternative start method..."]))
      (main_backup_path st) in
  match run_command os cmd "Executing start command" st0 with
  | (Val true, s1) =>
      let z := os_sleep os 3 (world s1) in
      (match z.1 with Val _ => Val true | Exc e => Exc e end,
       MkSt z.2
         (trace s1 ++ ESleep 3 z.1 ::
          (if z.1 is Val _ then [ELog SUCCESS "Application started"] else []))
         (main_backup_path s1))
  | (Val false, s1) =>
      (Val false,
       MkSt (world s1) (trace s1 ++ [ELog ERROR "Failed to start application"])
            (main_backup_path s1))
  | (Exc e, s1) => (Exc e, s1)
  end.
Proof.
  unfold start_application, print_info, print_warning, print_success, print_error,
    path_exists, time_sleep, bind, emit, ret.
  cbn [world trace main_backup_path fst snd].
  destruct (os_exists os start_script (world st)); cbn [negb world trace
    main_backup_path fst snd]; rewrite <- !app_assoc; cbn [app];
    (destruct (run_command os _ _ _) as [[[|]|e] s1]; [|reflexivity..]);
    (destruct (os_sleep os 3 (world s1)) as [[[]|e] w2]; [|reflexivity]);
    cbn [fst snd trace world main_backup_path]; by rewrite <- app_assoc.
Qed.

(** [start_application] runs exactly one command: the start script when
    it exists, the alternative command line otherwise.  It returns True
    only when that command exited with 0, and then it has slept the settle
    delay of 3 seconds; it returns False only when the command did not
    exit with 0, without sleeping.  It never asks whether a process came
    up. *)
Theorem start_runs_exactly_one_command {W} (os : OS W) st :
  let cmd := if os_exists os start_script (world st)
             then Script start_script else alternative_start_cmd in
  exists r tail,
    calls (trace (start_application os st).2) =
      calls (trace st) ++ ERun cmd (Some 300) r :: tail /\
    ((start_application os st).1 = Val true ->
     run_ok (ERun cmd (Some 300) r) = true /\ tail = [ESleep 3 (Val tt)]) /\
    ((start_application os st).1 = Val false ->
     run_ok (ERun cmd (Some 300) r) = false /\ tail = []) /\
    (forall e, (start_application os st).1 = Exc e ->
     tail = [] \/ tail = [ESleep 3 (Exc e)]).
Proof.
  intros cmd. rewrite start_application_eq. cbv zeta. fold cmd.
  match goal with
  | |- context [run_command os cmd ?d ?s] =>
      destruct (run_command_cases os cmd d s) as (r & Hc & Hr);
      destruct (run_command os cmd d s) as [[[|]|e] s1]
  end; cbn [fst snd trace] in *; exists r.
  - destruct (os_sleep os 3 (world s1)) as [[[]|e] w2]; cbn [fst snd trace].
    + exists [ESleep 3 (Val tt)]. split_and!; [|by intros _|done|done].
      rewrite calls_app, Hc, calls_app. cbn [app].
      replace (calls (ELog INFO ("Starting " +:+ APP_NAME +:+ "...") ::
                 EExists start_script (os_exists os start_script (world st)) ::
                 (if os_exists os start_script (world st) then []
                  else [ELog WARNING ("Start script not found: " +:+ start_script);
                        ELog INFO "Attempting alternative start method..."])))
        with (@nil event) by (by destruct (os_exists os start_script (world st))).
      by rewrite app_nil_r, <- app_assoc.
    + exists [ESleep 3 (Exc e)]. split_and!; [|done|done|intros ? [= <-]; by right].
      rewrite calls_app, Hc, calls_app. cbn [app].
      replace (calls (ELog INFO ("Starting " +:+ APP_NAME +:+ "...") ::
                 EExists start_script (os_exists os start_script (world st)) ::
                 (if os_exists os start_script (world st) then []
                  else [ELog WARNING ("Start script not found: " +:+ start_script);
                        ELog INFO "Attempting alternative start method..."])))
        with (@nil event) by (by destruct (os_exists os start_script (world st))).
      by rewrite app_nil_r, <- app_assoc.
  - exists []. split_and!; [|done|by intros _|by left].
    rewrite calls_snoc_quiet, Hc, calls_app by done.
    replace (calls (ELog INFO ("Starting " +:+ APP_NAME +:+ "...") ::
               EExists start_script (os_exists os start_script (world st)) ::
               (if os_exists os start_script (world st) then []
                else [ELog WARNING ("Start script not found: " +:+ start_script);
                      ELog INFO "Attempting alternative start method..."])))
      with (@nil event) by (by destruct (os_exists os start_script (world st))).
    by rewrite app_nil_r.
  - exists []. split_and!; [|done|done|by left].
    rewrite Hc, calls_app.
    replace (calls (ELog INFO ("Starting " +:+ APP_NAME +:+ "...") ::
               EExists start_script (os_exists os start_script (world st)) ::
               (if os_exists os start_script (world st) then []
                else [ELog WARNING ("Start script not found: " +:+ start_script);
                      ELog INFO "Attempting alternative start method..."])))
      with (@nil event) by (by destruct (os_exists os start_script (world st))).
    by rewrite app_nil_r.
Qed.

(** * Rollback and backup at their edges *)

(** Without a usable backup, because the path is None or empty or because
    nothing exists at it, [rollback] returns False and touches nothing: no
    command is spawned, the application is not stopped, nothing is
    deleted. *)
Theorem rollback_without_backup_runs_nothing {W} (os : OS W) bp st :
  truthy bp = false \/ os_exists os (default "" bp) (world st) = false ->
  (rollback os bp st).1 = Val false /\
  world (rollback os bp st).2 = world st /\
  calls (trace (rollback os bp st).2) = calls (trace st).
Proof.
  intros Hbp. unfold rollback, print_warning, print_error.
  rewrite bind_emit, bind_unfold.
  assert ((match bp with
           | Some (String _ _ as p) => path_exists os p
           | _ => ret false
           end) (MkSt (world st)
                   (trace st ++ [ELog WARNING "Initiating rollback to previous version..."])
                   (main_backup_path st)) =
          (Val false,
           MkSt (world st)
             (trace st ++ ELog WARNING "Initiating rollback to previous version..." ::
                match bp with
                | Some (String _ _ as p) => [EExists p false]
                | _ => []
                end)
             (main_backup_path st))) as ->.
  { destruct bp as [[|a b]|]; unfold ret, path_exists; cbn [world trace main_backup_path].
    - reflexivity.
    - destruct Hbp as [Hbp|Hbp]; [done|]. cbn in Hbp. rewrite Hbp.
      by rewrite <- app_assoc.
    - reflexivity. }
  cbn [negb]. rewrite bind_emit. unfold ret. cbn [fst snd world trace].
  split_and!; [done..|].
  rewrite calls_snoc_quiet, calls_app by done.
  destruct bp as [[|a b]|]; cbn; by rewrite app_nil_r.
Qed.

Lemma rollback_without_backup_runs_nothing_witness :
  (rollback (ScriptOS source_missing) (Some example_backup_path) (init (0, 0)%nat)).1
    = Val false /\
  world (rollback (ScriptOS source_missing) (Some example_backup_path)
           (init (0, 0)%nat)).2 = world (init (0, 0)%nat) /\
  calls (trace (rollback (ScriptOS source_missing) (Some example_backup_path)
                  (init (0, 0)%nat)).2) = calls (trace (init (0, 0)%nat)).
Proof.
  apply (rollback_without_backup_runs_nothing (ScriptOS source_missing)
           (Some example_backup_path) (init (0, 0)%nat)).
  right. reflexivity.
Defined.

(** [backup_current_version] at its edges.  Without a deployment it
    returns None and runs nothing.  With one it runs exactly the backup
    command; the path it returns is the backup directory, the application
    name and the timestamp of the clock, which is never the deployment
    directory, and it returns it exactly when the command exited with
    0. *)
Theorem backup_returns_path_of_successful_copy {W} (os : OS W) st :
  let bp := BACKUP_DIR +:+ "/" +:+ APP_NAME +:+ "_" +:+
            os_strftime os "%Y%m%d_%H%M%S" (world st) in
  let r := (os_run os (backup_cmd bp) (Some 300) (world st)).1 in
  bp <> DEPLOY_DIR /\
  (os_exists os DEPLOY_DIR (world st) = false ->
   (backup_current_version os st).1 = Val None /\
   world (backup_current_version os st).2 = world st /\
   calls (trace (backup_current_version os st).2) = calls (trace st)) /\
  (os_exists os DEPLOY_DIR (world st) = true ->
   calls (trace (backup_current_version os st).2) =
     calls (trace st) ++ [ERun (backup_cmd bp) (Some 300) r] /\
   ((backup_current_version os st).1 = Val (Some bp) <->
    run_ok (ERun (backup_cmd bp) (Some 300) r) = true) /\
   (forall p, (backup_current_version os st).1 = Val (Some p) -> p = bp)).
Proof.
  intros bp r. split; [apply backup_path_not_deploy|].
  rewrite backup_current_version_eq. cbv zeta. fold bp. fold r. split.
  - intros ->. cbn [fst snd world trace]. split_and!; [done..|].
    rewrite calls_snoc_quiet, calls_app by done. cbn. by rewrite app_nil_r.
  - intros ->.
    assert (calls ((trace st ++ [ELog INFO "Creating backup of current version...";
                                 EExists DEPLOY_DIR true]) ++
                   ELog INFO ("Backing up to " +:+ bp)
                   :: ERun (backup_cmd bp) (Some 300) r :: verdict r) =
            calls (trace st) ++ [ERun (backup_cmd bp) (Some 300) r]) as Hcalls.
    { rewrite !calls_app. cbn [app].
      change (ELog INFO ("Backing up to " +:+ bp)
              :: ERun (backup_cmd bp) (Some 300) r :: verdict r)
        with ([ELog INFO ("Backing up to " +:+ bp); ERun (backup_cmd bp) (Some 300) r]
              ++ verdict r).
      rewrite calls_app, calls_verdict. cbn. by rewrite app_nil_r. }
    subst r. destruct (os_run os (backup_cmd bp) (Some 300) (world st)) as [[p|[]] w1];
      cbn [fst snd verdict_value] in *.
    + destruct (returncode p =? 0) eqn:Hrc; cbn [fst snd trace run_ok].
      * split_and!.
        -- rewrite calls_snoc_quiet by done. exact Hcalls.
        -- by rewrite Hrc.
        -- by intros ? [= <-].
      * split_and!.
        -- rewrite calls_snoc_quiet by done. exact Hcalls.
        -- by rewrite Hrc.
        -- by intros ? [= ].
    + cbn [fst snd trace run_ok]. split_and!; [exact Hcalls|done|by intros ? [= ]].
    + cbn [fst snd trace run_ok]. split_and!;
        [rewrite calls_snoc_quiet by done; exact Hcalls|done|by intros ? [= ]].
    + cbn [fst snd trace run_ok]. split_and!;
        [rewrite calls_snoc_quiet by done; exact Hcalls|done|by intros ? [= ]].
    + cbn [fst snd trace run_ok]. split_and!;
        [rewrite calls_snoc_quiet by done; exact Hcalls|done|by intros ? [= ]].
Qed.

(** * Every run of the script *)

Section Whole.
Context {W : Type} (os : OS W).

Lemma quietly_try {A} P (body : Prog W A) handler :
  quietly P body -> (forall e h, handler e = Some h -> quietly P h) ->
  quietly P (try_except body handler).
Proof.
  intros Hm Hh st. unfold try_except.
  destruct (Hm st) as (evs1 & Ht1 & HP1).
  destruct (body st) as [[a|e] st1]; cbn [fst snd] in *; [by exists evs1|].
  destruct (handler e) as [h|] eqn:He; [|by exists evs1].
  destruct (Hh e h He st1) as (evs2 & Ht2 & HP2).
  exists (evs1 ++ evs2). by rewrite Ht2, Ht1, app_assoc, forallb_app, HP1, HP2.
Qed.

(** A property of events that the banner has and that the try block and
    the except clauses only add to holds of the whole trace of [main]. *)
Lemma main_trace_quietly P (w : W) :
  forallb P (banner os w) = true ->
  quietly P (try_except (main_try os (os_time os w)) (main_except os)) ->
  forallb P (trace (main os (init w)).2) = true.
Proof.
  intros Hb Hq. rewrite main_eq.
  destruct (Hq (MkSt w (banner os w) None)) as (evs & -> & Hevs).
  cbn [trace]. by rewrite forallb_app, Hb, Hevs.
Qed.

End Whole.

(** [quietly P] for the try block of [main] with its except clauses, for a
    property [P] that the loop of the health check is known to keep. *)
Ltac solve_main_quietly :=
  apply quietly_try;
  [ unfold main_try;
    apply quietly_bind; [apply quietly_emits; intros ?; solve_emits|];
    intros [|];
    (apply quietly_bind; [|intros _; apply quietly_emits; intros ?; solve_emits]);
    [ apply quietly_bind; [apply quietly_emits; intros ?; solve_emits|];
      intros ?; apply quietly_bind; [apply quietly_set|];
      intros _; apply quietly_emits; intros ?; solve_emits
    | apply quietly_emits; intros ?; solve_emits ]
  | intros [] ? ?; simplify_eq/=; apply quietly_emits; intros ?; solve_emits ].

Lemma health_loop_timed {W} (os : OS W) :
  forall v N r a, emits v timed (health_check_loop os N r a).
Proof. solve_loop_emits. Qed.

(** In every run of [main], on every operating system, every command
    spawned through [run_command] carries the timeout of 300 seconds and
    every probe of the health endpoint the timeout of 5 seconds, and the
    status query, pgrep, is spawned without any timeout. *)
Theorem main_spawns_with_timeouts_except_status {W} (os : OS W) (w : W) :
  forallb timed (trace (main os (init w)).2) = true.
Proof.
  pose proof (health_loop_timed os) as Hloop.
  apply main_trace_quietly; [reflexivity|]. solve_main_quietly.
Qed.

(** * What a run can cost *)

Section Cost.
Context {W : Type} (os : OS W) (a b : nat).

Lemma total_app evs1 evs2 :
  total_cost a b (evs1 ++ evs2) = (total_cost a b evs1 + total_cost a b evs2)%nat.
Proof.
  unfold total_cost. induction evs1 as [|e evs1 IH]; cbn [foldr app]; [done|].
  rewrite IH. lia.
Qed.

Lemma total_no_call evs : forallb no_call evs = true -> total_cost a b evs = 0%nat.
Proof.
  unfold total_cost. induction evs as [|e evs IH]; cbn [foldr forallb]; [done|].
  intros [He Hevs]%andb_true_iff. rewrite (IH Hevs).
  by destruct e.
Qed.

Lemma spends_le {A} n n' (m : Prog W A) :
  (n <= n')%nat -> spends a b n m -> spends a b n' m.
Proof. intros Hle Hm st. destruct (Hm st) as (evs & Ht & Hn). exists evs. split; [done|lia]. Qed.

Lemma spends_quietly {A} n (m : Prog W A) : quietly no_call m -> spends a b n m.
Proof.
  intros Hm st. destruct (Hm st) as (evs & Ht & Hevs).
  exists evs. split; [done|]. rewrite (total_no_call _ Hevs). lia.
Qed.

Lemma spends_emits {A} n (m : Prog W A) :
  (forall v, emits v no_call m) -> spends a b n m.
Proof. intros Hm. by apply spends_quietly, quietly_emits. Qed.

Lemma spends_bind {A B} n1 n2 n (m : Prog W A) (k : A -> Prog W B) :
  spends a b n1 m -> (forall x, spends a b n2 (k x)) -> (n1 + n2 <= n)%nat ->
  spends a b n (bind m k).
Proof.
  intros Hm Hk Hle st. rewrite bind_unfold.
  destruct (Hm st) as (evs1 & Ht1 & Hn1).
  destruct (m st) as [[x|e] st1]; cbn [fst snd] in *.
  - destruct (Hk x st1) as (evs2 & Ht2 & Hn2).
    exists (evs1 ++ evs2). rewrite Ht2, Ht1, app_assoc, total_app. split; [done|lia].
  - exists evs1. split; [done|lia].
Qed.

Lemma spends_try {A} n1 n2 n (body : Prog W A) handler :
  spends a b n1 body -> (forall e h, handler e = Some h -> spends a b n2 h) ->
  (n1 + n2 <= n)%nat -> spends a b n (try_except body handler).
Proof.
  intros Hm Hh Hle st. unfold try_except.
  destruct (Hm st) as (evs1 & Ht1 & Hn1).
  destruct (body st) as [[x|e] st1]; cbn [fst snd] in *.
  - exists evs1. split; [done|lia].
  - destruct (handler e) as [h|] eqn:He.
    + destruct (Hh e h He st1) as (evs2 & Ht2 & Hn2).
      exists (evs1 ++ evs2). rewrite Ht2, Ht1, app_assoc, total_app. split; [done|lia].
    + exists evs1. split; [done|lia].
Qed.

Lemma spends_run c t : spends a b b (subprocess_run os c t).
Proof.
  intros st. exists [ERun c t (subprocess_run os c t st).1].
  unfold subprocess_run. destruct (os_run os c t (world st)) as [r w'].
  cbn. split; [done|lia].
Qed.

Lemma spends_sleep n : spends a b (a * Z.to_nat n) (time_sleep os n).
Proof.
  intros st. exists [ESleep n (time_sleep os n st).1].
  unfold time_sleep. destruct (os_sleep os n (world st)) as [r w'].
  cbn. split; [done|lia].
Qed.

End Cost.

(** A part of the script that neither sleeps nor spawns. *)
Ltac free := apply spends_emits; intros ?; solve_emits.

(** The two branches on a result of the script. *)
Ltac branch :=
  cbv beta;
  lazymatch goal with
  | |- spends _ _ _ (if negb ?x then _ else _) => destruct x; cbn [negb]
  | |- spends _ _ _ (match ?x with _ => _ end) => destruct x
  end.

(** A bind that spends [n1] and then [n2]. *)
Ltac spend n1 n2 :=
  apply (spends_bind _ _ n1 n2); [ | intros ? | try (cbn; lia) ].

Section CostOfSteps.
Context {W : Type} (os : OS W) (a b : nat).

Lemma run_command_spends c d : spends a b b (run_command os c d).
Proof.
  unfold run_command. spend 0%nat b; [free|].
  apply (spends_try _ _ b 0%nat); [| intros [] ? ?; simplify_eq/=; free | lia].
  spend b 0%nat; [apply spends_run|free].
Qed.

Lemma check_app_running_spends : spends a b b (check_app_running os).
Proof.
  unfold check_app_running. spend 0%nat b; [free|].
  spend b 0%nat; [apply spends_run|free].
Qed.

Lemma force_kill_spends : spends a b (b + 2 * a) (force_kill os).
Proof.
  unfold force_kill. spend 0%nat (b + 2 * a)%nat; [free|].
  spend b (2 * a)%nat; [apply run_command_spends|].
  branch; [|free].
  spend (2 * a)%nat 0%nat; [|free].
  apply (spends_le _ _ (a * Z.to_nat 2)); [cbn; lia|apply spends_sleep].
Qed.

Lemma stop_application_spends : spends a b (3 * b + 7 * a) (stop_application os).
Proof.
  unfold stop_application. spend 0%nat (3 * b + 7 * a)%nat; [free|].
  spend b (2 * b + 7 * a)%nat; [apply run_command_spends|].
  branch; [|apply (spends_le _ _ (b + 2 * a)); [lia|apply force_kill_spends]].
  spend (5 * a)%nat (2 * b + 2 * a)%nat;
    [apply (spends_le _ _ (a * Z.to_nat 5)); [cbn; lia|apply spends_sleep]|].
  spend b (b + 2 * a)%nat; [apply check_app_running_spends|].
  branch; [apply force_kill_spends|free].
Qed.

Lemma backup_current_version_spends : spends a b b (backup_current_version os).
Proof.
  unfold backup_current_version. spend 0%nat b; [free|].
  spend 0%nat b; [free|].
  branch; [|free].
  spend 0%nat b; [free|].
  spend b 0%nat; [apply run_command_spends|free].
Qed.

Lemma deploy_new_version_spends : spends a b (3 * b) (deploy_new_version os).
Proof.
  unfold deploy_new_version. spend 0%nat (3 * b)%nat; [free|].
  spend 0%nat (3 * b)%nat; [free|].
  branch; [|free].
  spend b (2 * b)%nat; [apply run_command_spends|].
  branch; [|free].
  spend b b; [apply run_command_spends|].
  branch; [|free].
  spend b 0%nat; [apply run_command_spends|free].
Qed.

Lemma start_application_spends : spends a b (b + 3 * a) (start_application os).
Proof.
  unfold start_application. spend 0%nat (b + 3 * a)%nat; [free|].
  spend 0%nat (b + 3 * a)%nat; [free|].
  spend 0%nat (b + 3 * a)%nat; [free|].
  spend b (3 * a)%nat; [apply run_command_spends|].
  branch; [|free].
  spend (3 * a)%nat 0%nat; [|free].
  apply (spends_le _ _ (a * Z.to_nat 3)); [cbn; lia|apply spends_sleep].
Qed.

Lemma health_attempt_spends attempt : spends a b b (health_attempt os attempt).
Proof.
  unfold health_attempt.
  apply (spends_try _ _ b 0%nat); [| | lia].
  - spend b 0%nat; [apply spends_run|free].
  - intros e h. destruct (is_Exception e); intros ?; simplify_eq/=. free.
Qed.

(** The loop of the health check probes once in each iteration and sleeps
    five seconds between two iterations. *)
Lemma health_check_loop_spends N r attempt :
  (attempt + r = N + 1)%nat ->
  spends a b (r * b + (r - 1) * (5 * a)) (health_check_loop os N r attempt).
Proof.
  revert attempt. induction r as [|r IH]; intros attempt Hr; cbn [health_check_loop].
  - free.
  - spend 0%nat (S r * b + (S r - 1) * (5 * a))%nat; [free|].
    apply (spends_bind _ _ b (r * b + r * (5 * a))%nat);
      [apply health_attempt_spends|intros ?|nia].
    branch; [free|].
    destruct r as [|r].
    + assert ((attempt <? N)%nat = false) as -> by (apply Nat.ltb_ge; lia).
      spend 0%nat 0%nat; [free|cbn [health_check_loop]; free].
    + apply (spends_bind _ _ (5 * a) (S r * b + (S r - 1) * (5 * a))%nat);
        [|intros _; apply IH; lia|nia].
      destruct (attempt <? N)%nat; [|free].
      apply (spends_le _ _ (a * Z.to_nat 5)); [cbn; lia|apply spends_sleep].
Qed.

Lemma health_check_spends : spends a b (12 * b + 55 * a) (health_check os).
Proof.
  unfold health_check, health_check_with.
  spend 0%nat (12 * b + 55 * a)%nat; [free|].
  apply (spends_le _ _ (12 * b + (12 - 1) * (5 * a))); [cbn; lia|].
  by apply health_check_loop_spends.
Qed.

Lemma rollback_spends bp : spends a b (5 * b + 10 * a) (rollback os bp).
Proof.
  unfold rollback. spend 0%nat (5 * b + 10 * a)%nat; [free|].
  spend 0%nat (5 * b + 10 * a)%nat; [free|].
  branch; [|free].
  spend (3 * b + 7 * a)%nat (2 * b + 3 * a)%nat; [apply stop_application_spends|].
  spend b (b + 3 * a)%nat; [apply run_command_spends|].
  spend (b + 3 * a)%nat 0%nat; [|free].
  branch; [apply start_application_spends|free].
Qed.

Lemma rollback_if_backup_spends : spends a b (5 * b + 10 * a) (rollback_if_backup os).
Proof.
  unfold rollback_if_backup.
  spend 0%nat (5 * b + 10 * a)%nat; [apply spends_quietly, quietly_get|].
  branch; [|free].
  spend (5 * b + 10 * a)%nat 0%nat; [apply rollback_spends|free].
Qed.

Lemma main_from_health_check_spends t :
  spends a b (17 * b + 65 * a) (main_from_health_check os t).
Proof.
  unfold main_from_health_check.
  spend (12 * b + 55 * a)%nat (5 * b + 10 * a)%nat; [apply health_check_spends|].
  branch; [free|].
  spend 0%nat (5 * b + 10 * a)%nat; [free|].
  spend 0%nat (5 * b + 10 * a)%nat; [apply spends_quietly, quietly_get|].
  spend (5 * b + 10 * a)%nat 0%nat; [|free].
  branch; [|free].
  spend (5 * b + 10 * a)%nat 0%nat; [apply rollback_spends|free].
Qed.

Lemma main_from_deploy_spends t :
  spends a b (21 * b + 68 * a) (main_from_deploy os t).
Proof.
  unfold main_from_deploy.
  spend (3 * b)%nat (18 * b + 68 * a)%nat; [apply deploy_new_version_spends|].
  branch; [|free].
  spend (b + 3 * a)%nat (17 * b + 65 * a)%nat; [apply start_application_spends|].
  branch; [apply main_from_health_check_spends|].
  spend 0%nat (5 * b + 10 * a)%nat; [free|].
  spend (5 * b + 10 * a)%nat 0%nat; [apply rollback_if_backup_spends|free].
Qed.

Lemma main_from_stop_spends t :
  spends a b (24 * b + 75 * a) (main_from_stop os t).
Proof.
  unfold main_from_stop.
  spend (3 * b + 7 * a)%nat (21 * b + 68 * a)%nat; [apply stop_application_spends|].
  branch; [apply main_from_deploy_spends|free].
Qed.

Lemma main_try_spends t : spends a b (26 * b + 75 * a) (main_try os t).
Proof.
  unfold main_try.
  apply (spends_bind _ _ b (25 * b + 75 * a)%nat);
    [apply check_app_running_spends|intros is_running|lia].
  destruct is_running.
  - spend b (24 * b + 75 * a)%nat; [|apply main_from_stop_spends].
    spend b 0%nat; [apply backup_current_version_spends|].
    spend 0%nat 0%nat; [apply spends_quietly, quietly_set|free].
  - spend 0%nat (21 * b + 68 * a)%nat; [free|].
    apply main_from_deploy_spends.
Qed.

Lemma main_except_spends e h :
  main_except os e = Some h -> spends a b (5 * b + 10 * a) h.
Proof.
  destruct e; intros ?; simplify_eq/=.
  - spend 0%nat (5 * b + 10 * a)%nat; [free|].
    spend 0%nat (5 * b + 10 * a)%nat; [free|].
    spend (5 * b + 10 * a)%nat 0%nat; [apply rollback_if_backup_spends|free].
  - spend 0%nat (5 * b + 10 * a)%nat; [free|].
    spend (5 * b + 10 * a)%nat 0%nat; [apply rollback_if_backup_spends|free].
  - spend 0%nat (5 * b + 10 * a)%nat; [free|].
    spend (5 * b + 10 * a)%nat 0%nat; [apply rollback_if_backup_spends|free].
  - spend 0%nat (5 * b + 10 * a)%nat; [free|].
    spend (5 * b + 10 * a)%nat 0%nat; [apply rollback_if_backup_spends|free].
Qed.

Lemma main_spends (w : W) :
  (total_cost a b (trace (main os (init w)).2) <= 31 * b + 85 * a)%nat.
Proof.
  rewrite main_eq.
  destruct (spends_try a b (26 * b + 75 * a) (5 * b + 10 * a) (31 * b + 85 * a)
              (main_try os (os_time os w)) (main_except os)
              (main_try_spends _) main_except_spends ltac:(lia)
              (MkSt w (banner os w) None)) as (evs & -> & Hevs).
  cbn [trace]. rewrite total_app.
  assert (total_cost a b (banner os w) = 0%nat) as -> by reflexivity. lia.
Qed.

End CostOfSteps.

(** A run of [main] asks time.sleep for at most 85 seconds in all and
    spawns at most 31 commands, whatever the operating system answers; and
    there is a run that does both. *)
Theorem main_sleeps_and_spawns_within_bounds :
  (forall W (os : OS W) (w : W),
     (total_cost 1 0 (trace (main os (init w)).2) <= 85)%nat /\
     (total_cost 0 1 (trace (main os (init w)).2) <= 31)%nat) /\
  total_cost 1 0 (trace (main (ScriptOS slowest_run) (init (0, 0)%nat)).2) = 85%nat /\
  total_cost 0 1 (trace (main (ScriptOS slowest_run) (init (0, 0)%nat)).2) = 31%nat.
Proof.
  split; [|split; vm_compute; reflexivity].
  intros W os w. split.
  - pose proof (main_spends os 1 0 w). lia.
  - pose proof (main_spends os 0 1 w). lia.
Qed.

(** * Where a run gives up *)

Section GivesUp.
Context {W : Type} (os : OS W) (l : event) (P Q : event -> bool).

Lemma gives_up_quietly (m : Prog W Z) : quietly P m -> gives_up l P Q m.
Proof. intros Hm st. destruct (Hm st) as (evs & Ht & HP). exists evs. by split; [|left]. Qed.

Lemma gives_up_bind {A} (m : Prog W A) (k : A -> Prog W Z) :
  quietly (fun e => P e && Q e) m -> (forall x, gives_up l P Q (k x)) ->
  gives_up l P Q (bind m k).
Proof.
  intros Hm Hk st. rewrite bind_unfold.
  destruct (Hm st) as (evs1 & Ht1 & H1).
  assert (forallb P evs1 = true /\ forallb Q evs1 = true) as [HP1 HQ1].
  { clear Ht1. induction evs1 as [|e evs1 IH]; [done|].
    cbn in H1 |- *. apply andb_true_iff in H1 as [[-> ->]%andb_true_iff H1].
    by destruct (IH H1) as [-> ->]. }
  destruct (m st) as [[x|e] st1]; cbn [fst snd] in *.
  - destruct (Hk x st1) as (evs2 & Ht2 & [HP2|(evs' & -> & HQ2 & Hr)]).
    + exists (evs1 ++ evs2). rewrite Ht2, Ht1, app_assoc. split; [done|]. left.
      by rewrite forallb_app, HP1, HP2.
    + exists (evs1 ++ evs' ++ [l]). rewrite Ht2, Ht1.
      split; [by rewrite <- !app_assoc|]. right.
      exists (evs1 ++ evs'). rewrite forallb_app, HQ1, HQ2.
      split_and!; [by rewrite <- !app_assoc|done|done].
  - exists evs1. by split; [|left].
Qed.

Lemma gives_up_line : gives_up (W:=W) l P Q (emit l ;; ret 1).
Proof. intros st. exists [l]. split; [done|]. right. exists []. by split_and!. Qed.

Lemma gives_up_try (body : Prog W Z) handler :
  gives_up l P Q body -> (forall e h, handler e = Some h -> quietly P h) ->
  gives_up l P Q (try_except body handler).
Proof.
  intros Hm Hh st. unfold try_except.
  destruct (Hm st) as (evs1 & Ht1 & H1).
  destruct (body st) as [[x|e] st1]; cbn [fst snd] in *; [by exists evs1|].
  destruct H1 as [HP1|(? & _ & _ & [=])].
  destruct (handler e) as [h|] eqn:He.
  - destruct (Hh e h He st1) as (evs2 & Ht2 & HP2).
    exists (evs1 ++ evs2). rewrite Ht2, Ht1, app_assoc. split; [done|]. left.
    by rewrite forallb_app, HP1, HP2.
  - exists evs1. by split; [|left].
Qed.

(** What [gives_up] says of a whole run of [main]. *)
Lemma main_gives_up (L : event -> bool) (w : W) :
  (forall e, P e = negb (L e)) ->
  forallb (fun e => P e && Q e) (banner os w) = true ->
  gives_up l P Q (try_except (main_try os (os_time os w)) (main_except os)) ->
  existsb L (trace (main os (init w)).2) = true ->
  (main os (init w)).1 = Val 1 /\
  exists tr, trace (main os (init w)).2 = tr ++ [l] /\ forallb Q tr = true.
Proof.
  intros HPL Hb Hm. rewrite main_eq.
  destruct (Hm (MkSt w (banner os w) None)) as (evs & -> & H). cbn [trace].
  assert (forallb P (banner os w) = true /\ forallb Q (banner os w) = true) as [HPb HQb].
  { revert Hb. generalize (banner os w). intros tr.
    induction tr as [|e tr IH]; [done|].
    cbn. intros [[-> ->]%andb_true_iff H1]%andb_true_iff.
    by destruct (IH H1) as [-> ->]. }
  destruct H as [HP|(evs' & -> & HQ & Hr)].
  - intros Hex. exfalso.
    assert (forallb P (banner os w ++ evs) = true) as Hall
      by by rewrite forallb_app, HPb, HP.
    revert Hex Hall. generalize (banner os w ++ evs). intros tr.
    induction tr as [|e tr IH]; [done|]. cbn. rewrite HPL.
    destruct (L e); cbn; [done|]. apply IH.
  - intros _. split; [done|]. exists (banner os w ++ evs').
    rewrite forallb_app, HQb, HQ. split; [by rewrite <- !app_assoc|done].
Qed.

End GivesUp.

Lemma health_loop_not_deploy_refused {W} (os : OS W) :
  forall v N r a, emits v (fun e => negb (deploy_refused e)) (health_check_loop os N r a).
Proof. solve_loop_emits. Qed.

(** The part of the try block of [main] before the application is
    stopped keeps a property that the status query and the backup keep. *)
Ltac solve_backup_quietly :=
  apply quietly_bind; [apply quietly_emits; intros ?; solve_emits|];
  intros ?; apply quietly_bind; [apply quietly_set|];
  intros _; apply quietly_emits; intros ?; solve_emits.

Lemma deploy_refused_calls evs :
  existsb deploy_refused evs = existsb deploy_refused (calls evs).
Proof.
  unfold calls. induction evs as [|e evs IH]; [done|].
  rewrite filter_cons. cbn [existsb]. rewrite IH.
  destruct (decide (is_call e)) as [Hc|Hc]; [done|].
  destruct e; try done; by destruct Hc.
Qed.

(** When one of its commands is refused, [deploy_new_version] returns
    False; and nothing it does belongs to what follows a deployment. *)
Lemma deploy_refusal {W} (os : OS W) st :
  exists evs,
    trace (deploy_new_version os st).2 = trace st ++ evs /\
    forallb (fun e => negb (after_deploy e)) evs = true /\
    (existsb deploy_refused evs = true -> (deploy_new_version os st).1 = Val false).
Proof.
  assert (quietly (fun e => negb (after_deploy e)) (deploy_new_version os)) as Hq
    by (apply quietly_emits; intros ?; solve_emits).
  destruct (Hq st) as (evs & Ht & HQ). exists evs. split_and!; [done..|].
  rewrite deploy_refused_calls.
  assert (calls (trace (deploy_new_version os st).2) = calls (trace st) ++ calls evs)
    as Hcalls by (by rewrite Ht, calls_app).
  clear Ht HQ Hq. revert Hcalls.
  unfold deploy_new_version, print_info, print_success, print_error.
  rewrite bind_emit, bind_unfold. unfold path_exists.
  cbn [world trace main_backup_path].
  destruct (os_exists os SOURCE_DIR (world st)); cbn [negb]; [|by rewrite bind_emit].
  rewrite bind_unfold.
  match goal with
  | |- context [run_command os (MkdirP DEPLOY_DIR) ?d ?s] =>
      destruct (run_command_cases os (MkdirP DEPLOY_DIR) d s) as (r1 & Hc1 & Hr1);
      destruct (run_command os (MkdirP DEPLOY_DIR) d s) as [[[|]|e1] s1]
  end; cbn [fst snd negb trace] in *;
    rewrite !calls_snoc_quiet in Hc1 by done; [|done|].
  - rewrite bind_unfold.
    match goal with
    | |- context [run_command os (CpRAll SOURCE_DIR DEPLOY_DIR) ?d ?s] =>
        destruct (run_command_cases os (CpRAll SOURCE_DIR DEPLOY_DIR) d s)
          as (r2 & Hc2 & Hr2);
        destruct (run_command os (CpRAll SOURCE_DIR DEPLOY_DIR) d s) as [[[|]|e2] s2]
    end; cbn [fst snd negb] in *; [|done|].
    + rewrite bind_unfold.
      match goal with
      | |- context [run_command os (ChmodX DEPLOY_DIR) ?d ?s] =>
          destruct (run_command_cases os (ChmodX DEPLOY_DIR) d s) as (r3 & Hc3 & Hr3);
          destruct (run_command os (ChmodX DEPLOY_DIR) d s) as [[[|]|e3] s3]
      end; cbn [fst snd negb] in *; [|done|].
      * rewrite bind_emit. cbn [ret fst snd trace].
        rewrite calls_snoc_quiet, Hc3, Hc2, Hc1, <- !app_assoc by done.
        intros <-%app_inv_head. cbn [app existsb].
        destruct r1 as [p1|x1], r2 as [p2|x2], r3 as [p3|x3]; try done.
        cbn in Hr1, Hr2, Hr3 |- *. by rewrite Hr1, Hr2, Hr3.
      * rewrite Hc3, Hc2, Hc1, <- !app_assoc.
        intros <-%app_inv_head. cbn [app existsb]. subst r3.
        destruct r1 as [p1|x1], r2 as [p2|x2]; try done.
        cbn in Hr1, Hr2 |- *. by rewrite Hr1, Hr2.
    + rewrite Hc2, Hc1, <- !app_assoc.
      intros <-%app_inv_head. cbn [app existsb]. subst r2.
      destruct r1 as [p1|x1]; try done. cbn in Hr1 |- *. by rewrite Hr1.
  - rewrite Hc1. intros <-%app_inv_head. by subst r1.
Qed.

(** When a command of the deployment fails, [main] logs that the
    deployment failed and returns 1 at once: up to that line, the last of
    the run, it has started nothing, probed nothing, restored nothing and
    sent no notification, also when the application had been stopped and
    a backup of it taken. *)
Theorem failed_deploy_ends_the_run {W} (os : OS W) (w : W) :
  existsb deploy_refused (trace (main os (init w)).2) = true ->
  (main os (init w)).1 = Val 1 /\
  exists tr,
    trace (main os (init w)).2 = tr ++ [ELog ERROR "Deployment failed"] /\
    forallb (fun e => negb (after_deploy e)) tr = true.
Proof.
  pose proof (health_loop_not_deploy_refused os) as Hloop.
  apply (main_gives_up os _ (fun e => negb (deploy_refused e))); [done|reflexivity|].
  assert (forall t, gives_up (ELog ERROR "Deployment failed")
            (fun e => negb (deploy_refused e)) (fun e => negb (after_deploy e))
            (main_from_deploy os t)) as Hdeploy.
  { intros t st. unfold main_from_deploy. rewrite bind_unfold.
    destruct (deploy_refusal os st) as (evs1 & Ht1 & HQ1 & Hfalse).
    assert ((deploy_new_version os st).1 <> Val false ->
            forallb (fun e => negb (deploy_refused e)) evs1 = true) as HP1.
    { intros Hne. destruct (existsb deploy_refused evs1) eqn:Hex; [by destruct Hne; auto|].
      clear -Hex. induction evs1 as [|e evs1 IH]; [done|].
      cbn in Hex |- *. apply orb_false_iff in Hex as [-> Hex]. by rewrite IH. }
    destruct (deploy_new_version os st) as [[[|]|e] st1]; cbn [fst snd negb] in *.
    - assert (quietly (fun e => negb (deploy_refused e))
                (started <- start_application os ;;
                 if negb started then
                   print_error "Failed to start application" ;;
                   rollback_if_backup os ;;
                   ret 1
                 else main_from_health_check os t)%py) as Hrest
        by (apply quietly_emits; intros ?; solve_emits).
      destruct (Hrest st1) as (evs2 & Ht2 & HP2).
      exists (evs1 ++ evs2). split; [by rewrite Ht2, Ht1, app_assoc|]. left.
      by rewrite forallb_app, HP1, HP2.
    - exists (evs1 ++ [ELog ERROR "Deployment failed"]).
      split; [by cbn; rewrite Ht1, <- app_assoc|]. right. by exists evs1.
    - exists evs1. split; [done|]. left. by apply HP1. }
  apply gives_up_try.
  - unfold main_try.
    apply gives_up_bind; [apply quietly_emits; intros ?; solve_emits|].
    intros [|].
    + apply gives_up_bind; [solve_backup_quietly|]. intros _.
      unfold main_from_stop.
      apply gives_up_bind; [apply quietly_emits; intros ?; solve_emits|].
      intros [|]; cbn [negb]; [apply Hdeploy|].
      apply gives_up_quietly, quietly_emits. intros ?. solve_emits.
    + apply gives_up_bind; [apply quietly_emits; intros ?; solve_emits|].
      intros _. apply Hdeploy.
  - intros [] ? ?; simplify_eq/=; apply quietly_emits; intros ?; solve_emits.
Qed.

Lemma failed_deploy_ends_the_run_witness :
  (main (ScriptOS mkdir_fails) (init (0, 0)%nat)).1 = Val 1 /\
  exists tr,
    trace (main (ScriptOS mkdir_fails) (init (0, 0)%nat)).2 =
      tr ++ [ELog ERROR "Deployment failed"] /\
    forallb (fun e => negb (after_deploy e)) tr = true.
Proof. apply (failed_deploy_ends_the_run (ScriptOS mkdir_fails) (0, 0)%nat). reflexivity. Defined.

(** * The status query *)

(** [check_app_running] calls subprocess.run outside any try block.  When
    the status query itself cannot be run, the exception reaches the
    except clauses of [main]: the run ends with exit code 1 after that
    one call, with the line of the clause as its last, and nothing is
    backed up, stopped, deployed or rolled back. *)
Theorem status_query_failure_ends_the_run {W} (os : OS W) (w w' : W) (e : exn) :
  os_run os status_cmd None w = (Exc e, w') ->
  (main os (init w)).1 = Val 1 /\
  world (main os (init w)).2 = w' /\
  trace (main os (init w)).2 =
    banner os w ++
    [ELog INFO "Checking if application is running...";
     ERun status_cmd None (Exc e)] ++
    match e with
    | KeyboardInterrupt => [EPrint ""; ELog WARNING "Deployment interrupted by user"]
    | _ => [ELog ERROR ("Unexpected error: " +:+ str e)]
    end.
Proof.
  intros Hrun. rewrite main_eq.
  unfold try_except, main_try. rewrite bind_unfold.
  unfold check_app_running, print_info. rewrite bind_emit, bind_unfold.
  unfold subprocess_run. cbn [world trace main_backup_path]. rewrite Hrun.
  cbn [fst snd]. unfold main_except.
  destruct e; unfold rollback_if_backup, get_backup_path, print, print_warning,
    print_error, emit, ret, bind; cbn; rewrite <- ?app_assoc; done.
Qed.

Lemma status_query_failure_ends_the_run_witness :
  (main (ScriptOS (answers [Exc (OSError "No such file or directory")] []))
        (init (0, 0)%nat)).1 = Val 1.
Proof.
  apply (status_query_failure_ends_the_run
           (ScriptOS (answers [Exc (OSError "No such file or directory")] []))
           (0, 0)%nat (1, 0)%nat (OSError "No such file or directory")).
  reflexivity.
Defined.
